(** * Shape normalisation of decoded audio (tensorflow_io audio_ops.py)

    A shallow embedding of [src/tensorflow_io/core/python/ops/audio_ops.py]:
    the helper [_fix_shape] and its two callers [decode] and [decode_mp3].

    The decoded audio is a rank-2 tensor of int16 samples, laid out as
    [channels, samples].  No arithmetic is ever done on the samples, so they
    are carried as [Z] without wrap-around.  The two [desired_*] arguments
    are Python ints, mathematical integers ([Z]); [tf.shape] is an int32
    tensor, so wherever the source combines an argument with it, in
    [desired_samples - org_samples] and in the shape handed to
    [tf.broadcast_to], the argument is first brought into int32, with
    two's complement wrap-around.  The dimensions of a tensor are taken to
    fit int32, as [tf.shape] needs ([rank2]).  The model is of eager
    execution, where [tf.shape] and the comparison [right_pad > 0] have
    concrete values; memory limits are left out.  The native kernels
    [core_ops.io_audio_decode*] are not part of the Python file and enter
    as section variables. *)

From Stdlib Require Import ZArith Lia.
From stdpp Require Import base option list.

(** ** Errors and the result monad *)

Inductive error : Type :=
  | IncompatibleShapes      (* tf.broadcast_to: shapes cannot be broadcast *)
  | NegativeDimension       (* a requested shape with a negative entry *)
  | NegativePadding         (* tf.pad: paddings must be non-negative *)
  | DecoderFailure (code : Z). (* raised by the native decoding kernel *)

Inductive result (A : Type) : Type :=
  | Ok (a : A)
  | Raise (e : error).
Arguments Ok {A} a.
Arguments Raise {A} e.

(** Sequencing of calls that may raise, through stdpp's [x ← c; k]. *)
#[global] Instance result_ret : MRet result := λ A a, Ok a.
#[global] Instance result_bind : MBind result := λ A B k c,
  match c with
  | Ok a => k a
  | Raise e => Raise e
  end.

(** ** int32 values *)

Definition int32_max : Z := 2147483647.

(** A Python int brought into an int32 tensor: the value modulo [2^32],
    read as a two's complement number. *)
Definition to_int32 (z : Z) : Z :=
  ((z + 2147483648) mod 4294967296 - 2147483648)%Z.

(** Subtraction of two int32 tensors. *)
Definition int32_sub (a b : Z) : Z := to_int32 (a - b).

(** ** Rank-2 tensors and the TensorFlow primitives the source calls *)

Module Tf.

(** A tensor of shape [[length rows, cols]].  The column count is kept
    apart from the rows because a tensor with no row still has one. *)
Record tensor2 : Type := Tensor2 { cols : nat; rows : list (list Z) }.

(** Every row has [cols] entries. *)
Definition rectangular (t : tensor2) : Prop :=
  Forall (λ r, length r = cols t) (rows t).

Definition channels (t : tensor2) : Z := Z.of_nat (length (rows t)).
Definition samples (t : tensor2) : Z := Z.of_nat (cols t).

(** The value really is a rank-2 tensor: every row has [cols] entries, and
    both dimensions fit the int32 in which [tf.shape] reports them. *)
Definition rank2 (t : tensor2) : Prop :=
  rectangular t
  ∧ (channels t ≤ int32_max)%Z
  ∧ (samples t ≤ int32_max)%Z.

(** [tf.shape(data)] *)
Definition shape (t : tensor2) : Z * Z := (channels t, samples t).

(** Entry [i, j] of the array. *)
Definition entry (t : tensor2) (i j : nat) : option Z :=
  r ← rows t !! i; r !! j.

(** Number of elements selected by the slice [[:k]] on a dimension of
    size [n]: a negative stop counts from the end, and the stop is
    clamped to the dimension. *)
Definition slice_stop (n : nat) (k : Z) : nat :=
  if (k <? 0)%Z then Z.to_nat (Z.max 0 (Z.of_nat n + k))
  else Z.to_nat (Z.min k (Z.of_nat n)).

(** [data[:, :k]] *)
Definition slice_cols (t : tensor2) (k : Z) : tensor2 :=
  let n := slice_stop (cols t) k in
  {| cols := n; rows := take n <$> rows t |}.

(** [data[:k, :]] *)
Definition slice_rows (t : tensor2) (k : Z) : tensor2 :=
  {| cols := cols t; rows := take (slice_stop (length (rows t)) k) (rows t) |}.

(** [tf.pad(data, [[top, bottom], [left, right]], "CONSTANT")], with the
    default constant 0. *)
Definition pad (t : tensor2) (paddings : (Z * Z) * (Z * Z)) : result tensor2 :=
  let '((top, bottom), (lpad, rpad)) := paddings in
  if ((top <? 0) || (bottom <? 0) || (lpad <? 0) || (rpad <? 0))%Z
  then Raise NegativePadding
  else
    let w := (Z.to_nat lpad + cols t + Z.to_nat rpad)%nat in
    let blank := replicate w 0%Z in
    Ok {| cols := w;
          rows := replicate (Z.to_nat top) blank
                  ++ ((λ r, replicate (Z.to_nat lpad) 0%Z ++ r
                            ++ replicate (Z.to_nat rpad) 0%Z) <$> rows t)
                  ++ replicate (Z.to_nat bottom) blank |}.

(** One dimension of size [have] can be broadcast to [want] when the two
    agree or [have] is 1. *)
Definition broadcastable (have want : nat) : bool :=
  bool_decide (have = want) || bool_decide (have = 1).

(** Stretch a dimension of size [have] to [want]: unchanged when they
    agree, else every element repeated [want] times. *)
Definition widen {A : Type} (have want : nat) (l : list A) : list A :=
  if decide (have = want) then l else l ≫= replicate want.

(** [tf.broadcast_to(data, [r, c])].  The shape list is packed into an
    int32 tensor first. *)
Definition broadcast_to (t : tensor2) (target : Z * Z) : result tensor2 :=
  let '(r, c) := target in
  let r := to_int32 r in
  let c := to_int32 c in
  if ((r <? 0) || (c <? 0))%Z then Raise NegativeDimension
  else
    let r := Z.to_nat r in
    let c := Z.to_nat c in
    if broadcastable (length (rows t)) r && broadcastable (cols t) c
    then Ok {| cols := c;
               rows := widen (length (rows t)) r (widen (cols t) c <$> rows t) |}
    else Raise IncompatibleShapes.

End Tf.

(** ** The Python module *)

Module AudioOps.
Import Tf.

(** [_fix_shape(data, desired_channels, desired_samples)] *)
Definition _fix_shape (data : tensor2) (desired_channels desired_samples : Z)
  : result tensor2 :=
  let org_shape := shape data in
  let org_samples := org_shape.2 in
  data ←
    (if (desired_samples >=? 0)%Z then
       (* truncate if necessary *)
       let data := slice_cols data desired_samples in
       (* pad if necessary *)
       let right_pad := int32_sub (to_int32 desired_samples) org_samples in
       if (right_pad >? 0)%Z
       then pad data ((0, 0), (0, right_pad))%Z
       else Ok data
     else Ok data);
  if (desired_channels >=? 0)%Z then
    let out_samples :=
      if (desired_samples >=? 0)%Z then desired_samples else org_samples in
    (* truncate if necessary *)
    let data := slice_rows data desired_channels in
    (* convert mono to stereo if necessary *)
    broadcast_to data (desired_channels, out_samples)
  else Ok data.

Section Decoders.
(** The encoded bytes and the operation name are only handed to the
    native kernel, which returns the samples and the sample rate. *)
Context {contents name : Type}.
Variable io_audio_decode : contents → option name → result (tensor2 * Z).
Variable io_audio_decode_mp3 : contents → option name → result (tensor2 * Z).

Definition decode (c : contents) (desired_channels desired_samples : Z)
    (nm : option name) : result (tensor2 * Z) :=
  '(samples, sample_rate) ← io_audio_decode c nm;
  samples ← _fix_shape samples desired_channels desired_samples;
  Ok (samples, sample_rate).

Definition decode_mp3 (c : contents) (desired_channels desired_samples : Z)
    (nm : option name) : result (tensor2 * Z) :=
  '(samples, sample_rate) ← io_audio_decode_mp3 c nm;
  samples ← _fix_shape samples desired_channels desired_samples;
  Ok (samples, sample_rate).
End Decoders.

End AudioOps.

(** ** The ShapeNormalizer of the specification

    A second definition, written from the words of the specification's
    algorithm (steps 1a, 1b, 2a, 2b, 2c), to be compared with [_fix_shape]. *)

Module ShapeNormalizer.
Import Tf.

(** 1a. Keep only the first [n] columns. *)
Definition truncate_samples (n : nat) (t : tensor2) : tensor2 :=
  {| cols := n `min` cols t; rows := take n <$> rows t |}.

(** 1b. Append zero-valued columns on the right until there are [n]. *)
Definition pad_samples (n : nat) (t : tensor2) : tensor2 :=
  {| cols := n; rows := (λ r, r ++ replicate (n - cols t) 0%Z) <$> rows t |}.

(** 1. Sample-dimension adjustment, only if [desired_samples >= 0]. *)
Definition adjust_samples (desired_samples : Z) (t : tensor2) : tensor2 :=
  if (desired_samples <? 0)%Z then t
  else
    let n := Z.to_nat desired_samples in
    let kept := truncate_samples n t in
    if decide (cols t < n) then pad_samples n kept else kept.

(** 2b. Keep only the first [n] rows. *)
Definition truncate_channels (n : nat) (t : tensor2) : tensor2 :=
  {| cols := cols t; rows := take n (rows t) |}.

(** 2c. Expand to exactly [n] rows: possible from a single row only. *)
Definition replicate_channels (n out_samples : nat) (t : tensor2)
  : result tensor2 :=
  if decide (length (rows t) = n)
  then Ok {| cols := out_samples; rows := rows t |}
  else match rows t with
       | [row] => Ok {| cols := out_samples; rows := replicate n row |}
       | _ => Raise IncompatibleShapes
       end.

(** 2. Channel-dimension adjustment, only if [desired_channels >= 0];
    2a fixes [out_samples]. *)
Definition adjust_channels (desired_channels desired_samples : Z)
    (t : tensor2) : result tensor2 :=
  if (desired_channels <? 0)%Z then Ok t
  else
    let out_samples :=
      if (0 <=? desired_samples)%Z then Z.to_nat desired_samples else cols t in
    let n := Z.to_nat desired_channels in
    replicate_channels n out_samples (truncate_channels n t).

Definition normalize (data : tensor2) (desired_channels desired_samples : Z)
  : result tensor2 :=
  adjust_channels desired_channels desired_samples
    (adjust_samples desired_samples data).

(** The three outcomes of the channel step on [t], asked for [n] rows of
    [c] columns. *)
Inductive channel_outcome (n c : nat) (t : tensor2) : result tensor2 → Prop :=
  | Truncated :
      n ≤ length (rows t) →
      channel_outcome n c t (Ok {| cols := c; rows := take n (rows t) |})
  | Replicated row :
      rows t = [row] → 1 < n →
      channel_outcome n c t (Ok {| cols := c; rows := replicate n row |})
  | Refused :
      length (rows t) < n → length (rows t) ≠ 1 →
      channel_outcome n c t (Raise IncompatibleShapes).

End ShapeNormalizer.

Import Tf AudioOps ShapeNormalizer.

(** The one way [_fix_shape] fails: more channels are asked for than the
    input has, and the input is not mono. *)
Definition expansion_refused (data : tensor2) (desired_channels : Z) : Prop :=
  (desired_channels >= 0)%Z
  ∧ (desired_channels > channels data)%Z
  ∧ channels data ≠ 1%Z.

(** ** The result in closed form *)

(** A row brought to [desired_samples] entries: cut, or filled with zeros
    on the right; left alone when [desired_samples] is negative. *)
Definition fit_row (desired_samples : Z) (r : list Z) : list Z :=
  if (0 <=? desired_samples)%Z
  then resize (Z.to_nat desired_samples) 0%Z r
  else r.

(** The rows brought to [desired_channels]: cut, or filled with copies of
    the first row; left alone when [desired_channels] is negative.  The
    filling is what the broadcast does from a single row, the only case in
    which [_fix_shape] lets it happen. *)
Definition fit_rows (desired_channels : Z) (l : list (list Z)) : list (list Z) :=
  if (0 <=? desired_channels)%Z
  then resize (Z.to_nat desired_channels) (hd [] l) l
  else l.

Definition fitted (data : tensor2) (desired_channels desired_samples : Z)
  : tensor2 :=
  {| cols := if (0 <=? desired_samples)%Z then Z.to_nat desired_samples
             else cols data;
     rows := fit_rows desired_channels (fit_row desired_samples <$> rows data) |}.

(** The range of an int16 sample. *)
Definition int16 (z : Z) : Prop := (-32768 ≤ z ≤ 32767)%Z.

(** Case analysis on the decoder's result, then on [_fix_shape]'s. *)
Ltac decoder_cases dec c nm :=
  destruct (dec c nm) as [[? ?]|?]; simpl;
  [ match goal with
    | |- context [_fix_shape ?t ?dc ?ds] =>
        let H := fresh "Hfix" in
        destruct (_fix_shape t dc ds) eqn:H; simpl
    end | ].

(** Arrays used in the examples below. *)
Definition mono4 : tensor2 := Tensor2 4 [[1; 2; 3; 4]%Z].
Definition stereo3 : tensor2 := Tensor2 3 [[1; 2; 3]; [4; 5; 6]]%Z.
Definition mono0 : tensor2 := Tensor2 0 [[]].

(** Closes [rank2] of a concrete array. *)
Ltac rank2_concrete :=
  split_and!; [repeat constructor | vm_compute; discriminate ..].

(** A decoder stand-in that ignores its input and returns a fixed result. *)
Definition fixed_decoder (samples : tensor2) (sample_rate : Z)
  : unit → option unit → result (tensor2 * Z) :=
  λ _ _, Ok (samples, sample_rate).

(** ** Scenarios of the specification, run on the model *)

Example scenario_A :
  _fix_shape (Tensor2 5 [[1; 2; 3; 4; 5]%Z]) (-1) 3 = Ok (Tensor2 3 [[1; 2; 3]%Z]).
Proof. reflexivity. Qed.

Example scenario_B :
  _fix_shape (Tensor2 3 [[1; 2; 3]%Z]) (-1) 5 = Ok (Tensor2 5 [[1; 2; 3; 0; 0]%Z]).
Proof. reflexivity. Qed.

Example scenario_C :
  _fix_shape (Tensor2 4 [[1; 2; 3; 4]%Z]) 2 (-1)
  = Ok (Tensor2 4 [[1; 2; 3; 4]; [1; 2; 3; 4]]%Z).
Proof. reflexivity. Qed.

Example scenario_D :
  _fix_shape (Tensor2 4 [[1; 2; 3; 4]; [5; 6; 7; 8]]%Z) 1 (-1)
  = Ok (Tensor2 4 [[1; 2; 3; 4]%Z]).
Proof. reflexivity. Qed.

Example stereo_to_five :
  _fix_shape (Tensor2 3 [[1; 2; 3]; [4; 5; 6]]%Z) 5 0 = Raise IncompatibleShapes.
Proof. reflexivity. Qed.

Example empty_to_mono :
  _fix_shape (Tensor2 3 []) 1 (-1) = Raise IncompatibleShapes.
Proof. reflexivity. Qed.

Example mono_to_none :
  _fix_shape (Tensor2 3 [[1; 2; 3]%Z]) 0 2 = Ok (Tensor2 2 []).
Proof. reflexivity. Qed.

(** ** int32 arithmetic *)

Section Int32.
Implicit Types (z a b : Z).

Lemma to_int32_small z :
  (-2147483648 ≤ z ≤ int32_max)%Z → to_int32 z = z.
Proof.
  unfold to_int32, int32_max. intros Hz.
  rewrite Z.mod_small by lia. lia.
Qed.

Lemma to_int32_range z : (-2147483648 ≤ to_int32 z ≤ int32_max)%Z.
Proof.
  unfold to_int32, int32_max.
  pose proof (Z.mod_pos_bound (z + 2147483648) 4294967296). lia.
Qed.

(** What wrapping takes away is a multiple of [2^32]. *)
Lemma to_int32_spec z : ∃ q : Z, z = (to_int32 z + 4294967296 * q)%Z.
Proof.
  exists ((z + 2147483648) `div` 4294967296)%Z. unfold to_int32.
  pose proof (Z.div_mod (z + 2147483648) 4294967296). lia.
Qed.

Lemma to_int32_unique z x (q : Z) :
  (-2147483648 ≤ x ≤ int32_max)%Z → z = (x + 4294967296 * q)%Z →
  to_int32 z = x.
Proof.
  intros Hx Hz. destruct (to_int32_spec z) as [q' Hq'].
  pose proof (to_int32_range z). unfold int32_max in *. lia.
Qed.

Lemma int32_sub_to_int32 a b : int32_sub (to_int32 a) b = to_int32 (a - b).
Proof.
  unfold int32_sub. destruct (to_int32_spec a) as [q Hq].
  destruct (to_int32_spec (to_int32 a - b)) as [q' Hq'].
  symmetry. apply (to_int32_unique _ _ (q + q')); [apply to_int32_range|lia].
Qed.


End Int32.

(** ** The primitives on their own *)

Lemma result_bind_Ok {A B} (a : A) (k : A → result B) : Ok a ≫= k = k a.
Proof. reflexivity. Qed.

Section Primitives.
Implicit Types (t : tensor2) (n i j : nat) (k : Z).

Lemma tensor2_eta t : {| cols := cols t; rows := rows t |} = t.
Proof. by destruct t. Qed.

Lemma rank2_rectangular t : rank2 t → rectangular t.
Proof. by intros (? & _). Qed.

Lemma slice_stop_nonneg n k :
  (0 ≤ k)%Z → slice_stop n k = Z.to_nat k `min` n.
Proof.
  intros Hk. unfold slice_stop.
  destruct (Z.ltb_spec k 0); lia.
Qed.

Lemma widen_same {A} n (l : list A) : widen n n l = l.
Proof. unfold widen. by rewrite decide_True. Qed.

Lemma fmap_widen_same n (l : list (list Z)) : widen n n <$> l = l.
Proof.
  rewrite <- (list_fmap_id l) at 2.
  apply list_fmap_ext. intros _ r _. apply widen_same.
Qed.

Lemma slice_cols_truncate t k :
  rectangular t → (0 ≤ k)%Z → slice_cols t k = truncate_samples (Z.to_nat k) t.
Proof.
  intros Ht Hk. unfold slice_cols, truncate_samples.
  rewrite slice_stop_nonneg by done. f_equal.
  apply Forall_fmap_ext. eapply Forall_impl; [exact Ht|].
  intros r Hr. simpl in Hr.
  by rewrite <- Hr, <- take_take, (take_ge r (length r)).
Qed.

Lemma pad_right t k :
  (0 ≤ k)%Z →
  pad t ((0, 0), (0, k))%Z
  = Ok {| cols := cols t + Z.to_nat k;
          rows := (λ r, r ++ replicate (Z.to_nat k) 0%Z) <$> rows t |}.
Proof.
  intros Hk. unfold pad.
  destruct (Z.ltb_spec k 0) as [Hneg|_]; [lia|].
  simpl. by rewrite app_nil_r.
Qed.

(** A target within int32 is taken as it is. *)
Lemma broadcast_to_small t r c :
  (0 ≤ r ≤ int32_max)%Z → (0 ≤ c ≤ int32_max)%Z →
  broadcast_to t (r, c)
  = if broadcastable (length (rows t)) (Z.to_nat r)
       && broadcastable (cols t) (Z.to_nat c)
    then Ok {| cols := Z.to_nat c;
               rows := widen (length (rows t)) (Z.to_nat r)
                         (widen (cols t) (Z.to_nat c) <$> rows t) |}
    else Raise IncompatibleShapes.
Proof.
  intros Hr Hc. unfold broadcast_to.
  rewrite !to_int32_small by lia. cbv zeta.
  destruct (Z.ltb_spec r 0) as [?|_]; [lia|].
  by destruct (Z.ltb_spec c 0) as [?|_]; [lia|].
Qed.

Lemma broadcast_to_rows t k c :
  (0 ≤ k ≤ int32_max)%Z → (0 ≤ c ≤ int32_max)%Z → Z.to_nat c = cols t →
  broadcast_to (slice_rows t k) (k, c)
  = replicate_channels (Z.to_nat k) (cols t) (truncate_channels (Z.to_nat k) t).
Proof.
  intros Hk Hc Hcols. rewrite broadcast_to_small by done.
  unfold replicate_channels.
  unfold slice_rows, truncate_channels; simpl.
  rewrite slice_stop_nonneg, Hcols by lia.
  rewrite <- take_take, (take_ge (rows t) (length (rows t))) by done.
  unfold broadcastable at 2. rewrite bool_decide_true by done.
  rewrite fmap_widen_same, andb_true_r.
  unfold broadcastable, widen.
  destruct (decide (length (take (Z.to_nat k) (rows t)) = Z.to_nat k)) as [He|Hne].
  { by rewrite bool_decide_true. }
  rewrite (bool_decide_false _ Hne). simpl.
  destruct (take (Z.to_nat k) (rows t)) as [|r [|r' l]]; simpl; try done.
  by rewrite app_nil_r.
Qed.

End Primitives.

(** ** [_fix_shape] against the specification's algorithm *)

Section Refinement.
Implicit Types (data t : tensor2) (dc ds : Z).

Lemma cols_adjust_samples t ds :
  cols (adjust_samples ds t) = if (0 <=? ds)%Z then Z.to_nat ds else cols t.
Proof.
  unfold adjust_samples.
  destruct (Z.ltb_spec ds 0), (Z.leb_spec 0 ds); try lia.
  case_decide; simpl; lia.
Qed.

(** Within int32 the padding is the plain difference. *)
Lemma right_pad_small data ds :
  rank2 data → (0 ≤ ds ≤ int32_max)%Z →
  int32_sub (to_int32 ds) (shape data).2 = (ds - samples data)%Z.
Proof.
  intros (_ & _ & Hcols) Hds. rewrite int32_sub_to_int32. simpl.
  apply to_int32_small. unfold samples, int32_max in *. lia.
Qed.

(** The sample step of the source is step 1 of the specification. *)
Lemma sample_step data ds :
  rank2 data → (ds ≤ int32_max)%Z →
  (if (ds >=? 0)%Z then
     let data' := slice_cols data ds in
     let right_pad := int32_sub (to_int32 ds) (shape data).2 in
     if (right_pad >? 0)%Z then pad data' ((0, 0), (0, right_pad))%Z
     else Ok data'
   else Ok data) = Ok (adjust_samples ds data).
Proof.
  intros Hdata Hmax. unfold adjust_samples. cbv zeta.
  rewrite Z.geb_leb, Z.gtb_ltb.
  destruct (Z.leb_spec 0 ds) as [Hds|Hds], (Z.ltb_spec ds 0); try lia; [|done].
  rewrite right_pad_small by done. unfold samples.
  rewrite slice_cols_truncate by (done || by apply rank2_rectangular).
  destruct (Z.ltb_spec 0 (ds - Z.of_nat (cols data))) as [Hpad|Hpad].
  - rewrite decide_True by lia. rewrite pad_right by lia.
    unfold pad_samples. simpl. f_equal. f_equal; [lia|].
    apply list_fmap_ext. intros _ r _. do 2 f_equal. lia.
  - by rewrite decide_False by lia.
Qed.

Lemma fix_shape_normalize data dc ds :
  rank2 data → (dc ≤ int32_max)%Z → (ds ≤ int32_max)%Z →
  _fix_shape data dc ds = normalize data dc ds.
Proof.
  intros Hdata Hcmax Hsmax. unfold _fix_shape, normalize. cbv zeta.
  rewrite sample_step by done. rewrite result_bind_Ok.
  unfold adjust_channels. cbv zeta.
  change (shape data).2 with (Z.of_nat (cols data)).
  rewrite !Z.geb_leb.
  destruct (Z.leb_spec 0 dc) as [Hdc|Hdc], (Z.ltb_spec dc 0); try lia; [|done].
  pose proof (cols_adjust_samples data ds) as Hcols.
  destruct Hdata as (_ & _ & Hsamples). unfold samples in Hsamples.
  destruct (Z.leb_spec 0 ds) as [Hds|Hds].
  - rewrite <- Hcols. apply broadcast_to_rows; lia.
  - rewrite <- Hcols. apply broadcast_to_rows; [lia..|].
    unfold adjust_samples. destruct (Z.ltb_spec ds 0); lia.
Qed.

End Refinement.

(** ** The two steps of the algorithm *)

Section Steps.
Implicit Types (data t out : tensor2) (dc ds : Z) (n : nat).

(** On a rectangular array the sample step resizes every row. *)
Lemma rows_adjust_samples t ds :
  rectangular t → (0 ≤ ds)%Z →
  rows (adjust_samples ds t) = resize (Z.to_nat ds) 0%Z <$> rows t.
Proof.
  intros Ht Hds. unfold adjust_samples.
  destruct (Z.ltb_spec ds 0); [lia|]. cbv zeta.
  case_decide as Hlt; simpl.
  - rewrite <- list_fmap_compose. apply Forall_fmap_ext.
    eapply Forall_impl; [exact Ht|]. intros r Hr; simpl in *.
    rewrite resize_spec. do 2 f_equal. lia.
  - apply Forall_fmap_ext.
    eapply Forall_impl; [exact Ht|]. intros r Hr; simpl in *.
    rewrite resize_le; [done|lia].
Qed.

Lemma adjust_samples_neg t ds : (ds < 0)%Z → adjust_samples ds t = t.
Proof. intros Hds. unfold adjust_samples. by destruct (Z.ltb_spec ds 0); [|lia]. Qed.

Lemma length_rows_adjust_samples t ds :
  length (rows (adjust_samples ds t)) = length (rows t).
Proof.
  unfold adjust_samples. destruct (ds <? 0)%Z; [done|]. cbv zeta.
  case_decide; simpl; by rewrite ?length_fmap.
Qed.

Lemma rectangular_adjust_samples t ds :
  rectangular t → rectangular (adjust_samples ds t).
Proof.
  intros Ht. destruct (Z.lt_ge_cases ds 0) as [Hds|Hds].
  { by rewrite adjust_samples_neg. }
  unfold rectangular. rewrite rows_adjust_samples, cols_adjust_samples by done.
  destruct (Z.leb_spec 0 ds); [|lia].
  apply Forall_fmap, Forall_true. intros r. simpl. apply length_resize.
Qed.

Lemma replicate_channels_outcome n c t :
  channel_outcome n c t (replicate_channels n c (truncate_channels n t)).
Proof.
  unfold replicate_channels, truncate_channels. simpl.
  destruct (decide (n ≤ length (rows t))) as [Hle|Hgt].
  - rewrite decide_True by (rewrite length_take; lia). by constructor.
  - rewrite take_ge by lia. rewrite decide_False by lia.
    destruct (rows t) as [|row [|row' l]] eqn:Hrows; simpl in *.
    + apply Refused; rewrite Hrows; simpl; lia.
    + apply Replicated; [done|lia].
    + apply Refused; rewrite Hrows; simpl; lia.
Qed.

Lemma adjust_channels_outcome t dc ds :
  (0 ≤ dc)%Z →
  channel_outcome (Z.to_nat dc)
    (if (0 <=? ds)%Z then Z.to_nat ds else cols t) t
    (adjust_channels dc ds t).
Proof.
  intros Hdc. unfold adjust_channels.
  destruct (Z.ltb_spec dc 0); [lia|]. apply replicate_channels_outcome.
Qed.

Lemma adjust_channels_neg t dc ds : (dc < 0)%Z → adjust_channels dc ds t = Ok t.
Proof. intros Hdc. unfold adjust_channels. by destruct (Z.ltb_spec dc 0); [|lia]. Qed.

End Steps.

(** ** Shape of the result *)

Section Shape.
Implicit Types (data t out : tensor2) (dc ds : Z) (n : nat).

Lemma rectangular_channel_outcome n t res out :
  rectangular t → channel_outcome n (cols t) t res → res = Ok out →
  rectangular out ∧ length (rows out) = n ∧ cols out = cols t.
Proof.
  intros Ht Hres Hout. unfold rectangular.
  destruct Hres as [Hle|row Hrow Hn|]; simplify_eq; simpl.
  - split_and!; [by apply Forall_take|rewrite length_take; lia|done].
  - split_and!; [|by rewrite length_replicate|done].
    apply Forall_replicate. unfold rectangular in Ht. rewrite Hrow in Ht.
    by inversion_clear Ht.
Qed.

Lemma normalize_Ok_shape data dc ds out :
  rectangular data → normalize data dc ds = Ok out →
  rectangular out
  ∧ length (rows out) = (if (0 <=? dc)%Z then Z.to_nat dc else length (rows data))
  ∧ cols out = (if (0 <=? ds)%Z then Z.to_nat ds else cols data).
Proof.
  intros Hdata Hout. unfold normalize in Hout.
  pose proof (rectangular_adjust_samples data ds Hdata) as Hmid.
  pose proof (cols_adjust_samples data ds) as Hcols.
  destruct (Z.leb_spec 0 dc) as [Hdc|Hdc].
  - pose proof (adjust_channels_outcome (adjust_samples ds data) dc ds Hdc) as Hres.
    rewrite <- Hcols.
    replace (if (0 <=? ds)%Z then Z.to_nat ds else cols (adjust_samples ds data))
      with (cols (adjust_samples ds data)) in Hres
      by (rewrite Hcols; by destruct (0 <=? ds)%Z).
    eapply rectangular_channel_outcome; eauto.
  - rewrite adjust_channels_neg in Hout by done. simplify_eq.
    by rewrite length_rows_adjust_samples.
Qed.

Lemma fix_shape_Ok_shape data dc ds out :
  rank2 data → (dc ≤ int32_max)%Z → (ds ≤ int32_max)%Z →
  _fix_shape data dc ds = Ok out →
  rank2 out
  ∧ length (rows out) = (if (0 <=? dc)%Z then Z.to_nat dc else length (rows data))
  ∧ cols out = (if (0 <=? ds)%Z then Z.to_nat ds else cols data).
Proof.
  intros Hdata Hcmax Hsmax. rewrite fix_shape_normalize by done. intros Hout.
  destruct Hdata as (Hrect & Hch & Hsm).
  destruct (normalize_Ok_shape _ _ _ _ Hrect Hout) as (Hrect' & Hrows & Hcols).
  split; [|done]. unfold rank2, channels, samples, int32_max in *.
  split_and!; [done|..].
  - rewrite Hrows. destruct (Z.leb_spec 0 dc); lia.
  - rewrite Hcols. destruct (Z.leb_spec 0 ds); lia.
Qed.

End Shape.

Lemma rank2_mono4 : rank2 mono4.
Proof. rank2_concrete. Qed.

Lemma rank2_stereo3 : rank2 stereo3.
Proof. rank2_concrete. Qed.

Lemma rank2_mono0 : rank2 mono0.
Proof. rank2_concrete. Qed.

(** C1, as amended.  On a rank-2 input, with neither argument above the
    largest int32, a returning [_fix_shape] gives a rank-2 array whose
    channel count is [desired_channels] when that is non-negative and the
    input's channel count otherwise, and whose sample count is
    [desired_samples] when that is non-negative and the input's sample
    count otherwise. *)
Theorem fix_shape_dims (data out : tensor2) (desired_channels desired_samples : Z) :
  rank2 data →
  (desired_channels ≤ int32_max)%Z → (desired_samples ≤ int32_max)%Z →
  _fix_shape data desired_channels desired_samples = Ok out →
  rank2 out
  ∧ channels out
    = (if (desired_channels >=? 0)%Z then desired_channels else channels data)
  ∧ samples out
    = (if (desired_samples >=? 0)%Z then desired_samples else samples data).
Proof.
  intros Hdata Hcmax Hsmax Hout.
  destruct (fix_shape_Ok_shape _ _ _ _ Hdata Hcmax Hsmax Hout)
    as (Hrank & Hch & Hsm).
  split; [done|]. unfold channels, samples. rewrite Hch, Hsm, !Z.geb_leb.
  split.
  - destruct (Z.leb_spec 0 desired_channels); lia.
  - destruct (Z.leb_spec 0 desired_samples); lia.
Qed.

Lemma fix_shape_dims_witness :
  let data := Tensor2 3 [[1; 2; 3]; [4; 5; 6]]%Z in
  let out := Tensor2 5 [[1; 2; 3; 0; 0]%Z] in
  rank2 data ∧ (1 ≤ int32_max)%Z ∧ (5 ≤ int32_max)%Z
  ∧ _fix_shape data 1 5 = Ok out
  ∧ rank2 out ∧ channels out = 1%Z ∧ samples out = 5%Z.
Proof.
  intros data out.
  assert (Hdata : rank2 data) by rank2_concrete.
  assert (Hc : (1 ≤ int32_max)%Z) by (vm_compute; discriminate).
  assert (Hs : (5 ≤ int32_max)%Z) by (vm_compute; discriminate).
  assert (Hout : _fix_shape data 1 5 = Ok out) by reflexivity.
  split; [exact Hdata|]. split; [exact Hc|]. split; [exact Hs|].
  split; [exact Hout|].
  exact (fix_shape_dims data out 1 5 Hdata Hc Hs Hout).
Defined.

(** C1 as stated fails beyond int32: asked for [2^32 + 5] samples, a
    three-sample array comes back with five. *)
Lemma fix_shape_dims_beyond_int32 :
  rank2 stereo3
  ∧ ∃ out,
      _fix_shape stereo3 (-1) 4294967301 = Ok out
      ∧ out = Tensor2 5 [[1; 2; 3; 0; 0]; [4; 5; 6; 0; 0]]%Z
      ∧ samples out
        ≠ (if (4294967301 >=? 0)%Z then 4294967301%Z else samples stereo3).
Proof.
  split; [apply rank2_stereo3|].
  eexists. split; [reflexivity|]. split; [reflexivity|].
  vm_compute. discriminate.
Qed.

(** ** When the call raises *)

Section Raising.
Implicit Types (data t out : tensor2) (dc ds : Z) (n : nat).

Lemma fix_shape_refused data dc ds :
  rank2 data → (dc ≤ int32_max)%Z → (ds ≤ int32_max)%Z →
  expansion_refused data dc →
  _fix_shape data dc ds = Raise IncompatibleShapes.
Proof.
  intros Hdata Hcmax Hsmax (Hdc & Hgt & Hne). unfold channels in *.
  rewrite fix_shape_normalize by done. unfold normalize.
  assert (0 ≤ dc)%Z as Hdc' by lia.
  pose proof (adjust_channels_outcome (adjust_samples ds data) dc ds Hdc') as Hres.
  destruct Hres as [Hle|row Hrow Hn|]; [| |done].
  - rewrite length_rows_adjust_samples in Hle. lia.
  - apply (f_equal length) in Hrow.
    rewrite length_rows_adjust_samples in Hrow. simpl in Hrow. lia.
Qed.

Lemma fix_shape_accepted data dc ds :
  rank2 data → (dc ≤ int32_max)%Z → (ds ≤ int32_max)%Z →
  ¬ expansion_refused data dc →
  ∃ out, _fix_shape data dc ds = Ok out.
Proof.
  intros Hdata Hcmax Hsmax Hok. unfold expansion_refused, channels in Hok.
  rewrite fix_shape_normalize by done. unfold normalize.
  destruct (Z.lt_ge_cases dc 0) as [Hdc|Hdc].
  { rewrite adjust_channels_neg by done. eauto. }
  pose proof (adjust_channels_outcome (adjust_samples ds data) dc ds Hdc) as Hres.
  destruct Hres as [Hle|row Hrow Hn|Hlt Hne]; [eauto..|].
  rewrite length_rows_adjust_samples in Hlt, Hne.
  destruct Hok. lia.
Qed.

End Raising.

(** C2, as amended.  On a rank-2 input, with neither argument above the
    largest int32, [_fix_shape] raises exactly when [desired_channels >= 0],
    [desired_channels] exceeds the input's channel count and that count is
    not 1; the error is then the broadcast shape error, and in every other
    case the call returns. *)
Theorem fix_shape_raises_iff (data : tensor2) (desired_channels desired_samples : Z) :
  rank2 data →
  (desired_channels ≤ int32_max)%Z → (desired_samples ≤ int32_max)%Z →
  ((∃ e, _fix_shape data desired_channels desired_samples = Raise e)
   ↔ expansion_refused data desired_channels)
  ∧ (∀ e, _fix_shape data desired_channels desired_samples = Raise e →
          e = IncompatibleShapes)
  ∧ ((∃ out, _fix_shape data desired_channels desired_samples = Ok out)
     ↔ ¬ expansion_refused data desired_channels).
Proof.
  intros Hdata Hcmax Hsmax.
  assert (Decision (expansion_refused data desired_channels)) as [Hbad|Hgood]
    by (unfold expansion_refused; apply _).
  - pose proof (fix_shape_refused _ _ _ Hdata Hcmax Hsmax Hbad) as Hraise.
    rewrite Hraise. split_and!.
    + split; eauto.
    + by intros e [= <-].
    + split; [by intros [out ?]|done].
  - destruct (fix_shape_accepted _ _ _ Hdata Hcmax Hsmax Hgood) as [out Hout].
    rewrite Hout. split_and!.
    + split; [by intros [e ?]|done].
    + done.
    + split; eauto.
Qed.

Lemma fix_shape_raises_iff_witness :
  let data := Tensor2 3 [[1; 2; 3]; [4; 5; 6]]%Z in
  rank2 data ∧ (3 ≤ int32_max)%Z ∧ (-1 ≤ int32_max)%Z
  ∧ ((∃ e, _fix_shape data 3 (-1) = Raise e) ↔ expansion_refused data 3)
  ∧ (∀ e, _fix_shape data 3 (-1) = Raise e → e = IncompatibleShapes)
  ∧ ((∃ out, _fix_shape data 3 (-1) = Ok out) ↔ ¬ expansion_refused data 3).
Proof.
  intros data.
  assert (Hdata : rank2 data) by rank2_concrete.
  assert (Hc : (3 ≤ int32_max)%Z) by (vm_compute; discriminate).
  assert (Hs : (-1 ≤ int32_max)%Z) by (vm_compute; discriminate).
  split; [exact Hdata|]. split; [exact Hc|]. split; [exact Hs|].
  exact (fix_shape_raises_iff data 3 (-1) Hdata Hc Hs).
Defined.

(** C2 as stated fails beyond int32: asked for [2^31] channels, a mono
    array is not duplicated; the wrapped count is negative and the call
    raises, with another error than the broadcast's. *)
Lemma fix_shape_raises_negative_dimension :
  rank2 mono0
  ∧ ¬ expansion_refused mono0 2147483648
  ∧ _fix_shape mono0 2147483648 (-1) = Raise NegativeDimension.
Proof.
  split; [apply rank2_mono0|]. split; [|reflexivity].
  intros (_ & _ & Hne). by apply Hne.
Qed.

(** ** Contents of the result *)

Section Contents.
Implicit Types (data t out : tensor2) (dc ds : Z) (n i j : nat).

Lemma rectangular_lookup t i r :
  rectangular t → rows t !! i = Some r → length r = cols t.
Proof. intros Ht Hr. exact (Forall_lookup_1 _ _ _ _ Ht Hr). Qed.

Lemma rank2_lookup t i r : rank2 t → rows t !! i = Some r → length r = cols t.
Proof. intros (Ht & _). by apply rectangular_lookup. Qed.

Lemma entry_adjust_samples t ds i j :
  rectangular t → (0 ≤ ds)%Z →
  entry (adjust_samples ds t) i j
  = r ← rows t !! i; resize (Z.to_nat ds) 0%Z r !! j.
Proof.
  intros Ht Hds. unfold entry.
  rewrite rows_adjust_samples, list_lookup_fmap by done.
  by destruct (rows t !! i).
Qed.

(** The samples-only call, whatever [ds]: every row is cut, then filled
    with some zeros. *)
Lemma fix_shape_samples_only_rows data dc ds :
  (dc < 0)%Z → (0 ≤ ds)%Z →
  ∃ p : nat,
    _fix_shape data dc ds
    = Ok {| cols := slice_stop (cols data) ds + p;
            rows := (λ r, take (slice_stop (cols data) ds) r
                          ++ replicate p 0%Z) <$> rows data |}.
Proof.
  intros Hdc Hds. unfold _fix_shape. cbv zeta.
  rewrite !Z.geb_leb, Z.gtb_ltb.
  destruct (Z.leb_spec 0 ds); [|lia].
  destruct (Z.leb_spec 0 dc); [lia|].
  destruct (Z.ltb_spec 0 (int32_sub (to_int32 ds) (shape data).2)) as [Hpad|Hpad].
  - exists (Z.to_nat (int32_sub (to_int32 ds) (shape data).2)).
    rewrite pad_right by lia. rewrite result_bind_Ok.
    unfold slice_cols. simpl. by rewrite <- list_fmap_compose.
  - exists 0. rewrite result_bind_Ok. unfold slice_cols. simpl.
    do 2 f_equal; [lia|].
    apply list_fmap_ext. intros _ r _. by rewrite app_nil_r.
Qed.

Lemma fix_shape_samples_only_eq data dc ds :
  rank2 data → (ds ≤ int32_max)%Z → (dc < 0)%Z →
  _fix_shape data dc ds = Ok (adjust_samples ds data).
Proof.
  intros Hdata Hsmax Hdc.
  rewrite fix_shape_normalize by (done || unfold int32_max; lia).
  unfold normalize. by rewrite adjust_channels_neg.
Qed.

End Contents.

(** C3.  With [desired_samples >= 0] and [desired_channels < 0], on a
    rank-2 input the call returns; every column [j] below both the input's
    sample count and [desired_samples] is the input's column [j], and every
    entry the result has in a column [j] from the input's sample count up
    to [desired_samples] is zero.  When [desired_samples] is at most the
    largest int32, the result has an entry, zero, in each of these
    columns. *)
Theorem fix_shape_truncate_pad (data : tensor2) (desired_channels desired_samples : Z) :
  rank2 data → (desired_samples >= 0)%Z → (desired_channels < 0)%Z →
  ∃ out,
    _fix_shape data desired_channels desired_samples = Ok out
    ∧ channels out = channels data
    ∧ (∀ i j, (Z.of_nat j < Z.min (samples data) desired_samples)%Z →
              entry out i j = entry data i j
              ∧ (Z.of_nat i < channels data → is_Some (entry out i j))%Z)
    ∧ (∀ i j v, (samples data ≤ Z.of_nat j < desired_samples)%Z →
                entry out i j = Some v → v = 0%Z)
    ∧ ((desired_samples ≤ int32_max)%Z →
       ∀ i j, (Z.of_nat i < channels data)%Z →
              (samples data ≤ Z.of_nat j < desired_samples)%Z →
              entry out i j = Some 0%Z).
Proof.
  intros Hdata Hds Hdc.
  pose proof (rank2_rectangular _ Hdata) as Hrect.
  assert (0 ≤ desired_samples)%Z as Hds' by lia.
  destruct (fix_shape_samples_only_rows data _ _ Hdc Hds') as (p & Hout).
  eexists. split; [exact Hout|].
  unfold channels, samples. simpl. rewrite length_fmap.
  rewrite slice_stop_nonneg by done.
  split; [done|]. split; [|split].
  - intros i j Hj. unfold entry. simpl. rewrite list_lookup_fmap.
    destruct (rows data !! i) as [r|] eqn:Hr; simpl.
    + pose proof (rectangular_lookup _ _ _ Hrect Hr) as Hlen.
      rewrite lookup_app_l by (rewrite length_take; lia).
      rewrite lookup_take_lt by lia.
      split; [done|]. intros _. apply lookup_lt_is_Some_2. lia.
    + split; [done|]. intros Hi. apply lookup_ge_None_1 in Hr. lia.
  - intros i j v Hj. unfold entry. simpl. rewrite list_lookup_fmap.
    destruct (rows data !! i) as [r|] eqn:Hr; [|done]. simpl.
    pose proof (rectangular_lookup _ _ _ Hrect Hr) as Hlen.
    rewrite lookup_app_r by (rewrite length_take; lia).
    intros Hv. by apply lookup_replicate_1 in Hv as [-> _].
  - intros Hmax i j Hi Hj.
    rewrite fix_shape_samples_only_eq in Hout by done.
    injection Hout as Hout.
    assert (entry (adjust_samples desired_samples data) i j = Some 0%Z) as Hzero.
    { rewrite entry_adjust_samples by done.
      destruct (lookup_lt_is_Some_2 (rows data) i) as [r Hr]; [lia|].
      rewrite Hr. simpl.
      pose proof (rectangular_lookup _ _ _ Hrect Hr) as Hlen.
      apply lookup_resize_new; lia. }
    rewrite Hout in Hzero. unfold entry in Hzero. simpl in Hzero.
    by rewrite slice_stop_nonneg in Hzero by done.
Qed.

Lemma fix_shape_truncate_pad_witness :
  let data := Tensor2 3 [[1; 2; 3]; [4; 5; 6]]%Z in
  rank2 data ∧ (5 >= 0)%Z ∧ (-1 < 0)%Z
  ∧ ∃ out,
      _fix_shape data (-1) 5 = Ok out
      ∧ channels out = channels data
      ∧ (∀ i j, (Z.of_nat j < Z.min (samples data) 5)%Z →
                entry out i j = entry data i j
                ∧ (Z.of_nat i < channels data → is_Some (entry out i j))%Z)
      ∧ (∀ i j v, (samples data ≤ Z.of_nat j < 5)%Z →
                  entry out i j = Some v → v = 0%Z)
      ∧ ((5 ≤ int32_max)%Z →
         ∀ i j, (Z.of_nat i < channels data)%Z →
                (samples data ≤ Z.of_nat j < 5)%Z →
                entry out i j = Some 0%Z).
Proof.
  intros data.
  assert (Hdata : rank2 data) by rank2_concrete.
  assert (Hds : (5 >= 0)%Z) by lia.
  assert (Hdc : (-1 < 0)%Z) by lia.
  split; [exact Hdata|]. split; [exact Hds|]. split; [exact Hdc|].
  exact (fix_shape_truncate_pad data (-1) 5 Hdata Hds Hdc).
Defined.

(** Beyond int32 the padding stops at the wrapped count: asked for
    [2^32 + 5] samples, a three-sample array is padded to five, and there
    is no column 5. *)
Example pad_stops_at_wrapped_count :
  ∃ out,
    _fix_shape stereo3 (-1) 4294967301 = Ok out
    ∧ entry out 0 4 = Some 0%Z ∧ entry out 0 5 = None.
Proof. eexists. split; [reflexivity|]. by split. Qed.

Section ChannelsOnly.
Implicit Types (data t out : tensor2) (dc ds : Z).

Lemma fix_shape_channels_only data dc ds :
  rank2 data → (0 ≤ dc ≤ int32_max)%Z → (ds < 0)%Z →
  channel_outcome (Z.to_nat dc) (cols data) data (_fix_shape data dc ds).
Proof.
  intros Hdata [Hdc Hcmax] Hds.
  rewrite fix_shape_normalize by (done || unfold int32_max; lia).
  unfold normalize. rewrite adjust_samples_neg by done.
  pose proof (adjust_channels_outcome data dc ds Hdc) as Hres.
  by destruct (Z.leb_spec 0 ds); [lia|].
Qed.

End ChannelsOnly.

(** C4, as amended.  A single-channel rank-2 input asked for [N >= 1]
    channels, [N] at most the largest int32, with the samples left alone,
    comes back as [N] rows, each one the original row. *)
Theorem fix_shape_mono_replicated (data : tensor2) (row : list Z)
    (N desired_samples : Z) :
  rank2 data → rows data = [row] → (N >= 1)%Z → (N ≤ int32_max)%Z →
  (desired_samples < 0)%Z →
  ∃ out,
    _fix_shape data N desired_samples = Ok out
    ∧ channels out = N
    ∧ samples out = samples data
    ∧ (∀ i, (Z.of_nat i < N)%Z → rows out !! i = Some row)
    ∧ out = Tensor2 (cols data) (replicate (Z.to_nat N) row).
Proof.
  intros Hdata Hrow HN Hmax Hds.
  exists (Tensor2 (cols data) (replicate (Z.to_nat N) row)).
  unfold channels, samples. simpl. rewrite length_replicate.
  split_and!; [|lia|done| |done].
  - assert (0 ≤ N ≤ int32_max)%Z as HN' by lia.
    destruct (fix_shape_channels_only data N desired_samples Hdata HN' Hds)
      as [Hle|row' Hrow' Hn|Hlt Hne].
    + rewrite Hrow in Hle |- *. simpl in Hle.
      by replace (Z.to_nat N) with 1 by lia.
    + congruence.
    + rewrite Hrow in Hne. by simpl in Hne.
  - intros i Hi. apply lookup_replicate_2. lia.
Qed.

Lemma fix_shape_mono_replicated_witness :
  let data := Tensor2 4 [[1; 2; 3; 4]%Z] in
  rank2 data ∧ rows data = [[1; 2; 3; 4]%Z] ∧ (3 >= 1)%Z
  ∧ (3 ≤ int32_max)%Z ∧ (-1 < 0)%Z
  ∧ ∃ out,
      _fix_shape data 3 (-1) = Ok out
      ∧ channels out = 3%Z
      ∧ samples out = samples data
      ∧ (∀ i, (Z.of_nat i < 3)%Z → rows out !! i = Some [1; 2; 3; 4]%Z)
      ∧ out = Tensor2 (cols data) (replicate (Z.to_nat 3) [1; 2; 3; 4]%Z).
Proof.
  intros data.
  assert (Hdata : rank2 data) by rank2_concrete.
  assert (Hrow : rows data = [[1; 2; 3; 4]%Z]) by reflexivity.
  assert (HN : (3 >= 1)%Z) by lia.
  assert (Hmax : (3 ≤ int32_max)%Z) by (vm_compute; discriminate).
  assert (Hds : (-1 < 0)%Z) by lia.
  split; [exact Hdata|]. split; [exact Hrow|].
  split; [exact HN|]. split; [exact Hmax|]. split; [exact Hds|].
  exact (fix_shape_mono_replicated data _ 3 (-1) Hdata Hrow HN Hmax Hds).
Defined.

(** C4 as stated fails beyond int32: asked for [2^31] channels, a mono
    array is not replicated, the call raises; asked for [2^32 + 2], it
    comes back with two rows. *)
Lemma fix_shape_mono_beyond_int32 :
  rank2 mono0 ∧ rows mono0 = [[]] ∧ (2147483648 >= 1)%Z ∧ (-1 < 0)%Z
  ∧ _fix_shape mono0 2147483648 (-1) = Raise NegativeDimension
  ∧ rank2 mono4 ∧ rows mono4 = [[1; 2; 3; 4]%Z] ∧ (4294967298 >= 1)%Z
  ∧ _fix_shape mono4 4294967298 (-1)
    = Ok (Tensor2 4 [[1; 2; 3; 4]; [1; 2; 3; 4]]%Z).
Proof.
  split; [apply rank2_mono0|]. split; [reflexivity|].
  split; [vm_compute; discriminate|]. split; [reflexivity|].
  split; [reflexivity|].
  split; [apply rank2_mono4|]. split; [reflexivity|].
  split; [vm_compute; discriminate|]. reflexivity.
Qed.

(** C5.  With [0 <= desired_channels <= ] the input's channel count and
    the samples left alone, the result is exactly the first
    [desired_channels] rows of the input, values untouched. *)
Theorem fix_shape_first_channels (data : tensor2)
    (desired_channels desired_samples : Z) :
  rank2 data →
  (desired_channels >= 0)%Z → (channels data >= desired_channels)%Z →
  (desired_samples < 0)%Z →
  _fix_shape data desired_channels desired_samples
  = Ok {| cols := cols data;
          rows := take (Z.to_nat desired_channels) (rows data) |}.
Proof.
  intros Hdata Hdc Hch Hds.
  assert (0 ≤ desired_channels ≤ int32_max)%Z as Hdc'.
  { destruct Hdata as (_ & Hmax & _). lia. }
  unfold channels in Hch.
  destruct (fix_shape_channels_only data _ desired_samples Hdata Hdc' Hds)
    as [Hle|row Hrow Hn|Hlt Hne]; [done| |lia].
  rewrite Hrow in Hch. simpl in Hch. lia.
Qed.

Lemma fix_shape_first_channels_witness :
  let data := Tensor2 4 [[1; 2; 3; 4]; [5; 6; 7; 8]]%Z in
  rank2 data ∧ (1 >= 0)%Z ∧ (channels data >= 1)%Z ∧ (-1 < 0)%Z
  ∧ _fix_shape data 1 (-1)
    = Ok {| cols := cols data; rows := take (Z.to_nat 1) (rows data) |}.
Proof.
  intros data.
  assert (Hdata : rank2 data) by rank2_concrete.
  assert (Hdc : (1 >= 0)%Z) by lia.
  assert (Hch : (channels data >= 1)%Z) by (vm_compute; discriminate).
  assert (Hds : (-1 < 0)%Z) by lia.
  split; [exact Hdata|]. split; [exact Hdc|].
  split; [exact Hch|]. split; [exact Hds|].
  exact (fix_shape_first_channels data 1 (-1) Hdata Hdc Hch Hds).
Defined.

(** C6.  With both arguments negative, whatever their values, the input
    comes back as it is. *)
Theorem fix_shape_identity (data : tensor2) (desired_channels desired_samples : Z) :
  (desired_channels < 0)%Z → (desired_samples < 0)%Z →
  _fix_shape data desired_channels desired_samples = Ok data.
Proof.
  intros Hdc Hds. unfold _fix_shape. rewrite !Z.geb_leb.
  destruct (Z.leb_spec 0 desired_samples); [lia|].
  destruct (Z.leb_spec 0 desired_channels); [lia|].
  reflexivity.
Qed.

Lemma fix_shape_identity_witness :
  (-7 < 0)%Z ∧ (-2 < 0)%Z
  ∧ _fix_shape (Tensor2 2 [[1; 2]; [3; 4]]%Z) (-7) (-2)
    = Ok (Tensor2 2 [[1; 2]; [3; 4]]%Z).
Proof.
  assert (Hdc : (-7 < 0)%Z) by lia.
  assert (Hds : (-2 < 0)%Z) by lia.
  split; [exact Hdc|]. split; [exact Hds|].
  exact (fix_shape_identity (Tensor2 2 [[1; 2]; [3; 4]]%Z) (-7) (-2) Hdc Hds).
Defined.

(** ** The two entry points *)

(** C7.  [decode] and [decode_mp3] return a pair exactly when the native
    decoder returned one and [_fix_shape] accepted its samples; the sample
    rate of the pair is the decoder's, and the samples are the decoder's
    after [_fix_shape]. *)
Theorem decode_sample_rate_unchanged {contents name : Type}
    (io_audio_decode io_audio_decode_mp3 :
       contents → option name → result (tensor2 * Z))
    (c : contents) (nm : option name)
    (desired_channels desired_samples : Z) (out : tensor2) (sample_rate : Z) :
  (decode io_audio_decode c desired_channels desired_samples nm
   = Ok (out, sample_rate)
   ↔ ∃ samples, io_audio_decode c nm = Ok (samples, sample_rate)
       ∧ _fix_shape samples desired_channels desired_samples = Ok out)
  ∧ (decode_mp3 io_audio_decode_mp3 c desired_channels desired_samples nm
     = Ok (out, sample_rate)
     ↔ ∃ samples, io_audio_decode_mp3 c nm = Ok (samples, sample_rate)
         ∧ _fix_shape samples desired_channels desired_samples = Ok out).
Proof.
  unfold decode, decode_mp3. split.
  - decoder_cases io_audio_decode c nm.
    + split; [intros [= -> ->]; eauto|].
      intros (samples & [= -> ->] & Hout). congruence.
    + split; [done|]. intros (samples & [= -> ->] & Hout). congruence.
    + split; [done|]. by intros (samples & ? & _).
  - decoder_cases io_audio_decode_mp3 c nm.
    + split; [intros [= -> ->]; eauto|].
      intros (samples & [= -> ->] & Hout). congruence.
    + split; [done|]. intros (samples & [= -> ->] & Hout). congruence.
    + split; [done|]. by intros (samples & ? & _).
Qed.

Example decode_mono_to_stereo :
  decode (fixed_decoder mono4 44100) () 2 (-1) None
  = Ok (Tensor2 4 [[1; 2; 3; 4]; [1; 2; 3; 4]]%Z, 44100%Z).
Proof. reflexivity. Qed.

Example decode_mp3_refused :
  decode_mp3 (fixed_decoder stereo3 8000) () 5 0 None = Raise IncompatibleShapes.
Proof. reflexivity. Qed.


(** ** Zero-sized requests *)

(** C8, as amended.  On a rank-2 input, with neither argument above the
    largest int32, [desired_channels = 0] returns an array with no channel;
    [desired_samples = 0] returns an array with no sample when
    [desired_channels] is negative, or at most the input's channel count,
    or the input is mono. *)
Theorem fix_shape_zero_dims (data : tensor2) (desired_channels desired_samples : Z) :
  rank2 data →
  (desired_channels ≤ int32_max)%Z → (desired_samples ≤ int32_max)%Z →
  (desired_channels = 0%Z →
   ∃ out, _fix_shape data desired_channels desired_samples = Ok out
          ∧ rank2 out ∧ channels out = 0%Z)
  ∧ (desired_samples = 0%Z →
     (desired_channels < 0 ∨ desired_channels ≤ channels data
      ∨ channels data = 1)%Z →
     ∃ out, _fix_shape data desired_channels desired_samples = Ok out
            ∧ rank2 out ∧ samples out = 0%Z).
Proof.
  intros Hdata Hcmax Hsmax. split.
  - intros ->.
    destruct (fix_shape_accepted data 0 desired_samples Hdata Hcmax Hsmax)
      as [out Hout].
    { unfold expansion_refused, channels. lia. }
    exists out. split; [done|].
    destruct (fix_shape_Ok_shape _ _ _ _ Hdata Hcmax Hsmax Hout)
      as (Hrank & Hch & _).
    split; [done|]. unfold channels. rewrite Hch. done.
  - intros -> Hfits.
    destruct (fix_shape_accepted data desired_channels 0 Hdata Hcmax Hsmax)
      as [out Hout].
    { unfold expansion_refused. lia. }
    exists out. split; [done|].
    destruct (fix_shape_Ok_shape _ _ _ _ Hdata Hcmax Hsmax Hout)
      as (Hrank & _ & Hsm).
    split; [done|]. unfold samples. rewrite Hsm. done.
Qed.

Lemma fix_shape_zero_dims_witness :
  rank2 stereo3 ∧ (0 ≤ int32_max)%Z ∧ (0 ≤ int32_max)%Z
  ∧ (0%Z = 0%Z →
     ∃ out, _fix_shape stereo3 0 0 = Ok out ∧ rank2 out ∧ channels out = 0%Z)
  ∧ (0%Z = 0%Z →
     (0 < 0 ∨ 0 ≤ channels stereo3 ∨ channels stereo3 = 1)%Z →
     ∃ out, _fix_shape stereo3 0 0 = Ok out ∧ rank2 out ∧ samples out = 0%Z).
Proof.
  assert (Hdata : rank2 stereo3) by rank2_concrete.
  assert (Hmax : (0 ≤ int32_max)%Z) by (vm_compute; discriminate).
  split; [exact Hdata|]. split; [exact Hmax|]. split; [exact Hmax|].
  exact (fix_shape_zero_dims stereo3 0 0 Hdata Hmax Hmax).
Defined.

(** C8 as stated fails: a two-channel array asked for five channels and
    zero samples is refused by the broadcast. *)
Lemma fix_shape_zero_samples_refused :
  rank2 stereo3
  ∧ (5%Z = 0%Z ∨ 0%Z = 0%Z)
  ∧ _fix_shape stereo3 5 0 = Raise IncompatibleShapes
  ∧ ¬ ∃ out, _fix_shape stereo3 5 0 = Ok out.
Proof.
  split; [apply rank2_stereo3|]. split; [by right|].
  split; [reflexivity|]. by intros [out ?].
Qed.

(** Beyond int32 a zero-channel request fails as well: with [2^32 + 1]
    samples asked for, nothing is padded and the array no longer fits the
    wrapped target. *)
Example zero_channels_beyond_int32 :
  _fix_shape stereo3 0 4294967297 = Raise IncompatibleShapes.
Proof. reflexivity. Qed.

(** ** Order of the two steps *)




(** ** Idempotence *)

Section Idempotence.
Implicit Types (data t out : tensor2) (c s r k : Z).









End Idempotence.



(** Beyond int32 as well: the five samples that [2^32 + 5] gives stay
    five. *)
Example idempotent_beyond_int32 :
  _fix_shape (Tensor2 5 [[1; 2; 3; 0; 0]; [4; 5; 6; 0; 0]]%Z) (-1) 4294967301
  = _fix_shape stereo3 (-1) 4294967301.
Proof. reflexivity. Qed.

(** ** The closed form of the result *)

Section ClosedForm.
Implicit Types (data t out : tensor2) (dc ds : Z) (l : list (list Z)).

Lemma rows_adjust_samples_fit t ds :
  rectangular t → rows (adjust_samples ds t) = fit_row ds <$> rows t.
Proof.
  intros Ht. unfold fit_row. destruct (Z.leb_spec 0 ds) as [Hds|Hds].
  - by apply rows_adjust_samples.
  - rewrite adjust_samples_neg by done. symmetry. apply list_fmap_id.
Qed.

Lemma resize_singleton {A} (x : A) n : resize n x [x] = replicate n x.
Proof. destruct n as [|n]; [done|]. simpl. by rewrite resize_nil. Qed.

Lemma normalize_fitted data dc ds out :
  rectangular data → normalize data dc ds = Ok out → out = fitted data dc ds.
Proof.
  intros Hdata Hout. unfold normalize in Hout. unfold fitted.
  pose proof (rows_adjust_samples_fit data ds Hdata) as Hrows.
  pose proof (cols_adjust_samples data ds) as Hcols.
  unfold fit_rows. destruct (Z.leb_spec 0 dc) as [Hdc|Hdc].
  - pose proof (adjust_channels_outcome (adjust_samples ds data) dc ds Hdc) as Hres.
    rewrite Hout in Hres. rewrite <- Hrows.
    inversion Hres as [Hle Heq|row Hrow Hn Heq|]; subst out; f_equal.
    + by destruct (0 <=? ds)%Z.
    + by rewrite resize_le.
    + by destruct (0 <=? ds)%Z.
    + rewrite Hrow. simpl. by rewrite resize_singleton.
  - rewrite adjust_channels_neg in Hout by done. simplify_eq.
    rewrite <- Hrows, <- Hcols. symmetry. apply tensor2_eta.
Qed.

Lemma fix_shape_fitted data dc ds :
  rank2 data → (dc ≤ int32_max)%Z → (ds ≤ int32_max)%Z →
  ¬ expansion_refused data dc →
  _fix_shape data dc ds = Ok (fitted data dc ds).
Proof.
  intros Hdata Hcmax Hsmax Hok.
  destruct (fix_shape_accepted data dc ds Hdata Hcmax Hsmax Hok) as [out Hout].
  rewrite Hout. f_equal.
  apply normalize_fitted; [by apply rank2_rectangular|].
  by rewrite <- fix_shape_normalize.
Qed.

End ClosedForm.

(** ** Fitting rows and columns, algebraically *)

Section Fitting.
Implicit Types (data t out : tensor2) (c s : Z) (l : list (list Z)) (r : list Z).

Lemma fit_row_neg s r : (s < 0)%Z → fit_row s r = r.
Proof. intros Hs. unfold fit_row. by destruct (Z.leb_spec 0 s); [lia|]. Qed.

Lemma fit_rows_neg c l : (c < 0)%Z → fit_rows c l = l.
Proof. intros Hc. unfold fit_rows. by destruct (Z.leb_spec 0 c); [lia|]. Qed.

Lemma fmap_fit_row_neg s l : (s < 0)%Z → fit_row s <$> l = l.
Proof.
  intros Hs. transitivity (id <$> l); [|apply list_fmap_id].
  apply list_fmap_ext. intros _ r _. by apply fit_row_neg.
Qed.

Lemma length_fit_row s r : (0 ≤ s)%Z → length (fit_row s r) = Z.to_nat s.
Proof.
  intros Hs. unfold fit_row. destruct (Z.leb_spec 0 s); [|lia].
  apply length_resize.
Qed.

Lemma length_fit_rows c l :
  length (fit_rows c l) = if (0 <=? c)%Z then Z.to_nat c else length l.
Proof. unfold fit_rows. destruct (0 <=? c)%Z; [apply length_resize|done]. Qed.

(** Narrowing a row twice is narrowing it once. *)
Lemma fit_row_fit_row s s' r :
  (s < 0 ∨ 0 ≤ s' ≤ s)%Z → fit_row s' (fit_row s r) = fit_row s' r.
Proof.
  intros [Hs|Hs].
  - by rewrite (fit_row_neg s).
  - unfold fit_row.
    destruct (Z.leb_spec 0 s'), (Z.leb_spec 0 s); try lia.
    apply resize_resize. lia.
Qed.

Lemma hd_resize {A} (x : A) n (k : list A) :
  0 < n → hd x (resize n (hd x k) k) = hd x k.
Proof. intros Hn. destruct n; [lia|]. by destruct k. Qed.

Lemma fit_rows_fit_rows c c' l :
  (c < 0 ∨ 0 ≤ c' ≤ c)%Z → fit_rows c' (fit_rows c l) = fit_rows c' l.
Proof.
  intros [Hc|Hc].
  - by rewrite (fit_rows_neg c).
  - unfold fit_rows.
    destruct (Z.leb_spec 0 c'), (Z.leb_spec 0 c); try lia.
    destruct (decide (Z.to_nat c = 0)) as [Hz|Hnz].
    + replace (Z.to_nat c') with 0 by lia. by rewrite !resize_0.
    + rewrite hd_resize by lia. apply resize_resize. lia.
Qed.

(** A map over the rows commutes with fitting their number, unless rows
    would be made up from nothing. *)
Lemma fmap_fit_rows (f : list Z → list Z) c l :
  l ≠ [] ∨ (c ≤ 0)%Z → f <$> fit_rows c l = fit_rows c (f <$> l).
Proof.
  intros Hl. unfold fit_rows. destruct (Z.leb_spec 0 c) as [Hc|Hc]; [|done].
  rewrite fmap_resize. destruct l as [|r l]; [|done].
  destruct Hl as [?|Hc0]; [done|].
  replace (Z.to_nat c) with 0 by lia. by rewrite !resize_0.
Qed.

Lemma not_refused_rows data c :
  ¬ expansion_refused data c → rows data ≠ [] ∨ (c ≤ 0)%Z.
Proof.
  intros Hok. destruct (rows data) as [|r l] eqn:Hrows; [|by left].
  right. apply Z.nlt_ge. intros Hc. apply Hok.
  unfold expansion_refused, channels. rewrite Hrows. simpl. lia.
Qed.

Lemma channels_fitted data c s :
  channels (fitted data c s) = if (0 <=? c)%Z then c else channels data.
Proof.
  unfold channels, fitted. simpl. rewrite length_fit_rows, length_fmap.
  destruct (Z.leb_spec 0 c); lia.
Qed.

(** Fitting an array already fitted to something at least as wide. *)
Lemma fitted_fitted data c s c' s' :
  ¬ expansion_refused data c →
  (c < 0 ∨ 0 ≤ c' ≤ c)%Z → (s < 0 ∨ 0 ≤ s' ≤ s)%Z →
  fitted (fitted data c s) c' s' = fitted data c' s'.
Proof.
  intros Hok Hc Hs. unfold fitted at 1 3. simpl. f_equal.
  - destruct (Z.leb_spec 0 s'), (Z.leb_spec 0 s); lia.
  - rewrite fmap_fit_rows.
    2:{ destruct (not_refused_rows data c Hok) as [Hne|?]; [left|by right].
        by destruct (rows data). }
    rewrite fit_rows_fit_rows by done. f_equal.
    rewrite <- list_fmap_compose. apply list_fmap_ext.
    intros _ r _. simpl. by apply fit_row_fit_row.
Qed.

(** What a successful call tells about its input and its result. *)
Lemma fix_shape_Ok_fitted data c s out :
  rank2 data → (c ≤ int32_max)%Z → (s ≤ int32_max)%Z →
  _fix_shape data c s = Ok out →
  ¬ expansion_refused data c ∧ out = fitted data c s ∧ rank2 out.
Proof.
  intros Hdata Hcmax Hsmax Hout. split; [|split].
  - intros Hbad. by rewrite fix_shape_refused in Hout.
  - apply normalize_fitted; [by apply rank2_rectangular|].
    by rewrite <- fix_shape_normalize.
  - by destruct (fix_shape_Ok_shape _ _ _ _ Hdata Hcmax Hsmax Hout).
Qed.

End Fitting.

Section Composition.
Implicit Types (data t out : tensor2) (c s : Z).

Lemma not_refused_neg data c : (c < 0)%Z → ¬ expansion_refused data c.
Proof. intros Hc (Hge & _). lia. Qed.

Lemma refused_channels data t c :
  channels t = channels data →
  expansion_refused t c ↔ expansion_refused data c.
Proof. intros Hch. unfold expansion_refused. by rewrite Hch. Qed.

Lemma fitted_self data :
  rectangular data → fitted data (channels data) (samples data) = data.
Proof.
  intros Hdata. destruct data as [w rws]. unfold rectangular in Hdata.
  unfold fitted, channels, samples, fit_rows. simpl in *.
  destruct (Z.leb_spec 0 (Z.of_nat w)); [|lia].
  destruct (Z.leb_spec 0 (Z.of_nat (length rws))); [|lia].
  rewrite !Nat2Z.id. f_equal.
  assert (fit_row (Z.of_nat w) <$> rws = rws) as ->.
  { transitivity (id <$> rws); [|apply list_fmap_id].
    apply Forall_fmap_ext. eapply Forall_impl; [exact Hdata|].
    intros r Hr. simpl in Hr. unfold fit_row.
    destruct (Z.leb_spec 0 (Z.of_nat w)); [|lia].
    rewrite Nat2Z.id, <- Hr. apply resize_all. }
  apply resize_all.
Qed.

Lemma fitted_samples_then_channels data c s c0 s0 :
  (c0 < 0)%Z → (s0 < 0)%Z →
  fitted (fitted data c0 s) c s0 = fitted data c s.
Proof.
  intros Hc0 Hs0. unfold fitted at 1 3. simpl.
  rewrite (fit_rows_neg c0), (fmap_fit_row_neg s0) by done.
  by destruct (Z.leb_spec 0 s0); [lia|].
Qed.

Lemma fitted_channels_then_samples data c s c0 s0 :
  ¬ expansion_refused data c → (c0 < 0)%Z → (s0 < 0)%Z →
  fitted (fitted data c s0) c0 s = fitted data c s.
Proof.
  intros Hok Hc0 Hs0. unfold fitted at 1 3. simpl.
  rewrite (fit_rows_neg c0), (fmap_fit_row_neg s0) by done.
  rewrite fmap_fit_rows by by apply not_refused_rows.
  by destruct (Z.leb_spec 0 s0); [lia|].
Qed.

End Composition.

(** X1.  Narrowing a result again: with no argument above the largest
    int32, after a successful call a second call that asks, in each
    dimension the first call fixed, for no more than the first did gives
    what it would have given on the original input. *)
Theorem fix_shape_narrow_again (data out : tensor2) (c s c' s' : Z) :
  rank2 data →
  (c ≤ int32_max)%Z → (s ≤ int32_max)%Z →
  (c' ≤ int32_max)%Z → (s' ≤ int32_max)%Z →
  _fix_shape data c s = Ok out →
  (c < 0 ∨ 0 ≤ c' ≤ c)%Z → (s < 0 ∨ 0 ≤ s' ≤ s)%Z →
  _fix_shape out c' s' = _fix_shape data c' s'.
Proof.
  intros Hdata Hcmax Hsmax Hcmax' Hsmax' Hout Hc Hs.
  destruct (fix_shape_Ok_fitted _ _ _ _ Hdata Hcmax Hsmax Hout)
    as (Hok & -> & Hrank).
  pose proof (channels_fitted data c s) as Hch.
  assert (Decision (expansion_refused data c')) as [Hbad|Hgood]
    by (unfold expansion_refused; apply _).
  - rewrite (fix_shape_refused data) by done.
    apply fix_shape_refused; [done..|].
    unfold expansion_refused in *. rewrite Hch.
    destruct (Z.leb_spec 0 c); [|done].
    destruct Hok. lia.
  - rewrite (fix_shape_fitted data) by done.
    rewrite fix_shape_fitted, fitted_fitted; [done..|].
    unfold expansion_refused in *. rewrite Hch.
    destruct (Z.leb_spec 0 c); lia.
Qed.

Lemma fix_shape_narrow_again_witness :
  rank2 mono4
  ∧ (3 ≤ int32_max)%Z ∧ (6 ≤ int32_max)%Z
  ∧ (2 ≤ int32_max)%Z ∧ (3 ≤ int32_max)%Z
  ∧ _fix_shape mono4 3 6 = Ok (Tensor2 6 (replicate 3 [1; 2; 3; 4; 0; 0]%Z))
  ∧ (3 < 0 ∨ 0 ≤ 2 ≤ 3)%Z ∧ (6 < 0 ∨ 0 ≤ 3 ≤ 6)%Z
  ∧ _fix_shape (Tensor2 6 (replicate 3 [1; 2; 3; 4; 0; 0]%Z)) 2 3
    = _fix_shape mono4 2 3.
Proof.
  assert (Hdata : rank2 mono4) by rank2_concrete.
  assert (H3 : (3 ≤ int32_max)%Z) by (vm_compute; discriminate).
  assert (H6 : (6 ≤ int32_max)%Z) by (vm_compute; discriminate).
  assert (H2 : (2 ≤ int32_max)%Z) by (vm_compute; discriminate).
  assert (Hout : _fix_shape mono4 3 6
                 = Ok (Tensor2 6 (replicate 3 [1; 2; 3; 4; 0; 0]%Z)))
    by reflexivity.
  assert (Hc : (3 < 0 ∨ 0 ≤ 2 ≤ 3)%Z) by lia.
  assert (Hs : (6 < 0 ∨ 0 ≤ 3 ≤ 6)%Z) by lia.
  split; [exact Hdata|]. split; [exact H3|]. split; [exact H6|].
  split; [exact H2|]. split; [exact H3|]. split; [exact Hout|].
  split; [exact Hc|]. split; [exact Hs|].
  exact (fix_shape_narrow_again mono4 _ 3 6 2 3
           Hdata H3 H6 H2 H3 Hout Hc Hs).
Defined.

(** X2.  Widening loses nothing: with neither argument above the largest
    int32, when a successful call left each dimension alone or made it no
    smaller, asking the result for the original shape gives the original
    array back. *)
Theorem fix_shape_widen_then_restore (data out : tensor2) (c s : Z) :
  rank2 data →
  (c ≤ int32_max)%Z → (s ≤ int32_max)%Z →
  _fix_shape data c s = Ok out →
  (c < 0 ∨ channels data ≤ c)%Z → (s < 0 ∨ samples data ≤ s)%Z →
  _fix_shape out (channels data) (samples data) = Ok data.
Proof.
  intros Hdata Hcmax Hsmax Hout Hc Hs.
  destruct (fix_shape_Ok_fitted _ _ _ _ Hdata Hcmax Hsmax Hout)
    as (Hok & -> & Hrank).
  pose proof (channels_fitted data c s) as Hch.
  destruct Hdata as (Hrect & Hchmax & Hsmmax).
  rewrite fix_shape_fitted; [|done..|].
  - rewrite fitted_fitted; [by rewrite fitted_self|done|..];
      unfold channels, samples in *; lia.
  - unfold expansion_refused. rewrite Hch.
    destruct (Z.leb_spec 0 c); lia.
Qed.

Lemma fix_shape_widen_then_restore_witness :
  rank2 mono4 ∧ (3 ≤ int32_max)%Z ∧ (6 ≤ int32_max)%Z
  ∧ _fix_shape mono4 3 6 = Ok (Tensor2 6 (replicate 3 [1; 2; 3; 4; 0; 0]%Z))
  ∧ (3 < 0 ∨ channels mono4 ≤ 3)%Z ∧ (6 < 0 ∨ samples mono4 ≤ 6)%Z
  ∧ _fix_shape (Tensor2 6 (replicate 3 [1; 2; 3; 4; 0; 0]%Z))
      (channels mono4) (samples mono4) = Ok mono4.
Proof.
  assert (Hdata : rank2 mono4) by rank2_concrete.
  assert (H3 : (3 ≤ int32_max)%Z) by (vm_compute; discriminate).
  assert (H6 : (6 ≤ int32_max)%Z) by (vm_compute; discriminate).
  assert (Hout : _fix_shape mono4 3 6
                 = Ok (Tensor2 6 (replicate 3 [1; 2; 3; 4; 0; 0]%Z)))
    by reflexivity.
  assert (Hc : (3 < 0 ∨ channels mono4 ≤ 3)%Z)
    by (right; vm_compute; discriminate).
  assert (Hs : (6 < 0 ∨ samples mono4 ≤ 6)%Z)
    by (right; vm_compute; discriminate).
  split; [exact Hdata|]. split; [exact H3|]. split; [exact H6|].
  split; [exact Hout|]. split; [exact Hc|]. split; [exact Hs|].
  exact (fix_shape_widen_then_restore mono4 _ 3 6 Hdata H3 H6 Hout Hc Hs).
Defined.

(** X3.  One dimension at a time: on a rank-2 input, with neither argument
    above the largest int32, a call with both arguments is the samples-only
    call followed by the channels-only call, and also the channels-only
    call followed by the samples-only call, errors included. *)
Theorem fix_shape_one_dimension_at_a_time (data : tensor2) (c s c0 s0 : Z) :
  rank2 data →
  (c ≤ int32_max)%Z → (s ≤ int32_max)%Z →
  (c0 < 0)%Z → (s0 < 0)%Z →
  _fix_shape data c s = (t ← _fix_shape data c0 s; _fix_shape t c s0)
  ∧ _fix_shape data c s = (t ← _fix_shape data c s0; _fix_shape t c0 s).
Proof.
  intros Hdata Hcmax Hsmax Hc0 Hs0.
  assert (c0 ≤ int32_max)%Z as Hcmax0 by (unfold int32_max; lia).
  assert (s0 ≤ int32_max)%Z as Hsmax0 by (unfold int32_max; lia).
  assert (Decision (expansion_refused data c)) as [Hbad|Hgood]
    by (unfold expansion_refused; apply _).
  - rewrite !(fix_shape_refused data c) by done. split; [|done].
    pose proof (fix_shape_fitted data c0 s Hdata Hcmax0 Hsmax
                  (not_refused_neg _ _ Hc0)) as Hmid.
    destruct (fix_shape_Ok_fitted _ _ _ _ Hdata Hcmax0 Hsmax Hmid)
      as (_ & _ & Hrank).
    rewrite Hmid, result_bind_Ok. symmetry.
    apply fix_shape_refused; [done..|].
    apply (refused_channels data); [|done].
    rewrite channels_fitted. by destruct (Z.leb_spec 0 c0); [lia|].
  - rewrite (fix_shape_fitted data c s) by done. split.
    + pose proof (fix_shape_fitted data c0 s Hdata Hcmax0 Hsmax
                    (not_refused_neg _ _ Hc0)) as Hmid.
      destruct (fix_shape_Ok_fitted _ _ _ _ Hdata Hcmax0 Hsmax Hmid)
        as (_ & _ & Hrank).
      rewrite Hmid, result_bind_Ok.
      rewrite fix_shape_fitted, fitted_samples_then_channels; [done..|].
      intros Hbad. apply Hgood. apply (refused_channels data) in Hbad; [done|].
      rewrite channels_fitted. by destruct (Z.leb_spec 0 c0); [lia|].
    + pose proof (fix_shape_fitted data c s0 Hdata Hcmax Hsmax0 Hgood) as Hmid.
      destruct (fix_shape_Ok_fitted _ _ _ _ Hdata Hcmax Hsmax0 Hmid)
        as (_ & _ & Hrank).
      rewrite Hmid, result_bind_Ok.
      rewrite fix_shape_fitted, fitted_channels_then_samples; [done..|].
      by apply not_refused_neg.
Qed.

Lemma fix_shape_one_dimension_at_a_time_witness :
  rank2 stereo3 ∧ (1 ≤ int32_max)%Z ∧ (5 ≤ int32_max)%Z
  ∧ (-1 < 0)%Z ∧ (-1 < 0)%Z
  ∧ _fix_shape stereo3 1 5 = (t ← _fix_shape stereo3 (-1) 5; _fix_shape t 1 (-1))
  ∧ _fix_shape stereo3 1 5 = (t ← _fix_shape stereo3 1 (-1); _fix_shape t (-1) 5).
Proof.
  assert (Hdata : rank2 stereo3) by rank2_concrete.
  assert (H1 : (1 ≤ int32_max)%Z) by (vm_compute; discriminate).
  assert (H5 : (5 ≤ int32_max)%Z) by (vm_compute; discriminate).
  assert (Hneg : (-1 < 0)%Z) by lia.
  split; [exact Hdata|]. split; [exact H1|]. split; [exact H5|].
  split; [exact Hneg|]. split; [exact Hneg|].
  exact (fix_shape_one_dimension_at_a_time stereo3 1 5 (-1) (-1)
           Hdata H1 H5 Hneg Hneg).
Defined.

(** ** Where every output sample comes from *)

Section Provenance.
Implicit Types (data t out : tensor2) (c s : Z) (l : list (list Z)) (r : list Z).

Lemma fit_rows_lookup c l i :
  ((0 ≤ c)%Z → Z.to_nat c ≤ length l ∨ length l = 1) →
  i < length (fit_rows c l) →
  fit_rows c l !! i = l !! (if decide (length l = 1) then 0 else i).
Proof.
  intros Hfit Hi. rewrite length_fit_rows in Hi. unfold fit_rows.
  destruct (Z.leb_spec 0 c) as [Hc|Hc].
  - destruct (decide (i < length l)) as [Hlt|Hge].
    + rewrite lookup_resize by done.
      case_decide; [|done]. by replace i with 0 by lia.
    + destruct (Hfit Hc) as [?|Hone]; [lia|].
      rewrite decide_True by done.
      rewrite lookup_resize_new by lia.
      by destruct l as [|r [|r' l]].
  - case_decide; [|done]. by replace i with 0 by lia.
Qed.

Lemma fit_row_lookup s r j :
  j < length (fit_row s r) →
  fit_row s r !! j = if decide (j < length r) then r !! j else Some 0%Z.
Proof.
  intros Hj. unfold fit_row in *.
  destruct (Z.leb_spec 0 s) as [Hs|Hs].
  - rewrite length_resize in Hj. case_decide.
    + by apply lookup_resize.
    + apply lookup_resize_new; lia.
  - by rewrite decide_True.
Qed.

End Provenance.

(** X4.  Every entry of a result, both arguments at once and neither
    above the largest int32: entry [i, j] of a returned array is the input's entry at column [j], taken from row
    [i], or from the single row when the input is mono, when [j] is below
    the input's sample count, and is zero otherwise. *)
Theorem fix_shape_entry (data out : tensor2) (c s : Z) (i j : nat) :
  rank2 data →
  (c ≤ int32_max)%Z → (s ≤ int32_max)%Z →
  _fix_shape data c s = Ok out →
  (Z.of_nat i < channels out)%Z → (Z.of_nat j < samples out)%Z →
  entry out i j
  = (if decide (Z.of_nat j < samples data)%Z
     then entry data (if decide (channels data = 1%Z) then 0 else i) j
     else Some 0%Z)
  ∧ is_Some (entry out i j).
Proof.
  intros Hdata Hcmax Hsmax Hout Hi Hj.
  destruct (fix_shape_Ok_fitted _ _ _ _ Hdata Hcmax Hsmax Hout)
    as (Hok & -> & Hrank).
  unfold channels, samples in *. simpl in Hi, Hj.
  assert (∀ o : option Z, is_Some o → ∀ o', o' = o → o' = o ∧ is_Some o')
    as Hboth by (by intros o Ho o' ->).
  apply Hboth; clear Hboth.
  { case_decide as Hlt; [|done]. unfold entry.
    assert ((if decide (Z.of_nat (length (rows data)) = 1%Z) then 0 else i)
            < length (rows data)) as Hsrc.
    { case_decide; [lia|].
      rewrite length_fit_rows, length_fmap in Hi.
      destruct (Z.leb_spec 0 c); [|lia].
      unfold expansion_refused, channels in Hok. lia. }
    destruct (lookup_lt_is_Some_2 _ _ Hsrc) as [r Hr]. rewrite Hr. simpl.
    apply lookup_lt_is_Some_2. rewrite (rank2_lookup _ _ _ Hdata Hr). lia. }
  unfold entry at 1. unfold fitted at 1. simpl.
  rewrite fit_rows_lookup, length_fmap; [|rewrite length_fmap|lia].
  2:{ intros Hc. unfold expansion_refused, channels in Hok. lia. }
  rewrite list_lookup_fmap.
  assert ((if decide (length (rows data) = 1) then 0 else i)
          = (if decide (Z.of_nat (length (rows data)) = 1%Z) then 0 else i))
    as -> by (repeat case_decide; lia).
  unfold entry.
  destruct (rows data !! _) as [r|] eqn:Hr; simpl.
  - pose proof (rank2_lookup _ _ _ Hdata Hr) as Hlen.
    rewrite fit_row_lookup.
    + rewrite Hlen. repeat case_decide; (done || lia).
    + unfold fit_row.
      destruct (Z.leb_spec 0 s); [rewrite length_resize|]; lia.
  - exfalso. apply lookup_ge_None_1 in Hr.
    rewrite length_fit_rows, length_fmap in Hi.
    unfold expansion_refused, channels in Hok.
    case_decide; destruct (Z.leb_spec 0 c); lia.
Qed.

Lemma fix_shape_entry_witness :
  let out := Tensor2 6 (replicate 3 [1; 2; 3; 4; 0; 0]%Z) in
  rank2 mono4 ∧ (3 ≤ int32_max)%Z ∧ (6 ≤ int32_max)%Z
  ∧ _fix_shape mono4 3 6 = Ok out
  ∧ (Z.of_nat 2 < channels out)%Z ∧ (Z.of_nat 3 < samples out)%Z
  ∧ entry out 2 3
    = (if decide (Z.of_nat 3 < samples mono4)%Z
       then entry mono4 (if decide (channels mono4 = 1%Z) then 0 else 2) 3
       else Some 0%Z)
  ∧ is_Some (entry out 2 3).
Proof.
  intros out.
  assert (Hdata : rank2 mono4) by rank2_concrete.
  assert (H3 : (3 ≤ int32_max)%Z) by (vm_compute; discriminate).
  assert (H6 : (6 ≤ int32_max)%Z) by (vm_compute; discriminate).
  assert (Hout : _fix_shape mono4 3 6 = Ok out) by reflexivity.
  assert (Hi : (Z.of_nat 2 < channels out)%Z) by reflexivity.
  assert (Hj : (Z.of_nat 3 < samples out)%Z) by reflexivity.
  split; [exact Hdata|]. split; [exact H3|]. split; [exact H6|].
  split; [exact Hout|]. split; [exact Hi|]. split; [exact Hj|].
  exact (fix_shape_entry mono4 out 3 6 2 3 Hdata H3 H6 Hout Hi Hj).
Defined.

(** ** What the primitives do to the values *)

Section Values.
Context (P : Z → Prop).
Hypothesis Hzero : P 0%Z.
Implicit Types (t out : tensor2) (c s k : Z).

Lemma slice_cols_Forall t k :
  Forall (Forall P) (rows t) → Forall (Forall P) (rows (slice_cols t k)).
Proof.
  intros Ht. unfold slice_cols. simpl. apply Forall_fmap.
  eapply Forall_impl; [exact Ht|]. intros r Hr. simpl. by apply Forall_take.
Qed.

Lemma slice_rows_Forall t k :
  Forall (Forall P) (rows t) → Forall (Forall P) (rows (slice_rows t k)).
Proof. intros Ht. unfold slice_rows. simpl. by apply Forall_take. Qed.

Lemma pad_Forall t paddings out :
  pad t paddings = Ok out →
  Forall (Forall P) (rows t) → Forall (Forall P) (rows out).
Proof.
  destruct paddings as [[top bottom] [lpad rpad]]. unfold pad.
  destruct (_ || _); [done|]. intros [= <-] Ht. simpl.
  repeat apply Forall_app_2.
  - by do 2 apply Forall_replicate.
  - apply Forall_fmap. eapply Forall_impl; [exact Ht|]. intros r Hr. simpl.
    repeat apply Forall_app_2; (done || by apply Forall_replicate).
  - by do 2 apply Forall_replicate.
Qed.

Lemma widen_Forall {A} (Q : A → Prop) (have want : nat) (l : list A) :
  Forall Q l → Forall Q (widen have want l).
Proof.
  intros Hl. unfold widen. case_decide; [done|].
  apply Forall_bind. eapply Forall_impl; [exact Hl|].
  intros x Hx. simpl. by apply Forall_replicate.
Qed.

Lemma broadcast_to_Forall t target out :
  broadcast_to t target = Ok out →
  Forall (Forall P) (rows t) → Forall (Forall P) (rows out).
Proof.
  destruct target as [r k]. unfold broadcast_to. cbv zeta.
  destruct (_ || _); [done|]. destruct (_ && _); [|done].
  intros [= <-] Ht. simpl. apply widen_Forall, Forall_fmap.
  eapply Forall_impl; [exact Ht|]. intros row Hrow. simpl.
  by apply widen_Forall.
Qed.

(** Whatever the arguments, cutting, zero padding and copying keep a
    property that zero and every input sample have. *)
Lemma fix_shape_Forall (data : tensor2) c s out :
  Forall (Forall P) (rows data) → _fix_shape data c s = Ok out →
  Forall (Forall P) (rows out).
Proof.
  intros Hdata. unfold _fix_shape. cbv zeta.
  match goal with
  | |- mbind _ ?m = _ → _ =>
      assert (∀ d, m = Ok d → Forall (Forall P) (rows d)) as Hmid;
      [|destruct m as [d|e]; [specialize (Hmid d eq_refl)|done]]
  end.
  { intros d. destruct (s >=? 0)%Z; [|by intros [= <-]].
    destruct (_ >? 0)%Z.
    - intros Hpad. eapply pad_Forall; [exact Hpad|]. by apply slice_cols_Forall.
    - intros [= <-]. by apply slice_cols_Forall. }
  rewrite result_bind_Ok. destruct (c >=? 0)%Z; [|by intros [= <-]].
  intros Hout. eapply broadcast_to_Forall; [exact Hout|].
  by apply slice_rows_Forall.
Qed.

End Values.

(** X5.  Nothing is mixed or scaled: every sample of a returned array is
    zero or occurs in the input. *)
Theorem fix_shape_no_new_values (data out : tensor2) (c s : Z)
    (r : list Z) (x : Z) :
  rank2 data →
  _fix_shape data c s = Ok out →
  r ∈ rows out → x ∈ r →
  x = 0%Z ∨ ∃ r', r' ∈ rows data ∧ x ∈ r'.
Proof.
  intros Hdata Hout Hr Hx.
  pose (P := λ x : Z, x = 0%Z ∨ ∃ r', r' ∈ rows data ∧ x ∈ r').
  assert (Forall (Forall P) (rows out)) as Hall.
  { apply (fix_shape_Forall P) with data c s; [by left| |done].
    apply Forall_forall. intros r' Hr'.
    apply Forall_forall. intros y Hy. right. eauto. }
  rewrite Forall_forall in Hall. specialize (Hall r Hr).
  rewrite Forall_forall in Hall. exact (Hall x Hx).
Qed.

Lemma fix_shape_no_new_values_witness :
  let out := Tensor2 6 (replicate 3 [1; 2; 3; 4; 0; 0]%Z) in
  rank2 mono4 ∧ _fix_shape mono4 3 6 = Ok out
  ∧ [1; 2; 3; 4; 0; 0]%Z ∈ rows out ∧ 4%Z ∈ [1; 2; 3; 4; 0; 0]%Z
  ∧ (4%Z = 0%Z ∨ ∃ r', r' ∈ rows mono4 ∧ 4%Z ∈ r').
Proof.
  intros out.
  assert (Hdata : rank2 mono4) by rank2_concrete.
  assert (Hout : _fix_shape mono4 3 6 = Ok out) by reflexivity.
  assert (Hr : [1; 2; 3; 4; 0; 0]%Z ∈ rows out) by repeat constructor.
  assert (Hx : 4%Z ∈ [1; 2; 3; 4; 0; 0]%Z) by repeat constructor.
  split; [exact Hdata|]. split; [exact Hout|].
  split; [exact Hr|]. split; [exact Hx|].
  exact (fix_shape_no_new_values mono4 out 3 6 _ 4 Hdata Hout Hr Hx).
Defined.

(** X6.  The samples stay int16: when every input sample is in the int16
    range, so is every sample of a returned array. *)
Theorem fix_shape_keeps_int16 (data out : tensor2) (c s : Z) :
  rank2 data →
  Forall (Forall int16) (rows data) →
  _fix_shape data c s = Ok out →
  Forall (Forall int16) (rows out).
Proof.
  intros Hdata Hrange Hout.
  apply (fix_shape_Forall int16) with data c s; [|done..].
  unfold int16. lia.
Qed.

Lemma fix_shape_keeps_int16_witness :
  let out := Tensor2 6 (replicate 3 [1; 2; 3; 4; 0; 0]%Z) in
  rank2 mono4 ∧ Forall (Forall int16) (rows mono4)
  ∧ _fix_shape mono4 3 6 = Ok out
  ∧ Forall (Forall int16) (rows out).
Proof.
  intros out.
  assert (Hdata : rank2 mono4) by rank2_concrete.
  assert (Hrange : Forall (Forall int16) (rows mono4))
    by (repeat constructor; discriminate).
  assert (Hout : _fix_shape mono4 3 6 = Ok out) by reflexivity.
  split; [exact Hdata|]. split; [exact Hrange|]. split; [exact Hout|].
  exact (fix_shape_keeps_int16 mono4 out 3 6 Hdata Hrange Hout).
Defined.

(** ** The entry points as a caller sees them *)

Section Callers.
Context {contents name : Type}.
Implicit Types (dec : contents → option name → result (tensor2 * Z)).
Implicit Types (c : contents) (nm : option name) (dc ds : Z).

Lemma fix_shape_unconstrained (data : tensor2) dc ds :
  (dc < 0)%Z → (ds < 0)%Z → _fix_shape data dc ds = Ok data.
Proof.
  intros Hdc Hds. unfold _fix_shape. rewrite !Z.geb_leb.
  by destruct (Z.leb_spec 0 ds), (Z.leb_spec 0 dc); try lia.
Qed.

Lemma decode_Ok dec c dc ds nm samples sr :
  dec c nm = Ok (samples, sr) →
  decode dec c dc ds nm = (out ← _fix_shape samples dc ds; Ok (out, sr)).
Proof. intros Hdec. unfold decode. by rewrite Hdec. Qed.

Lemma decode_Raise dec c dc ds nm e :
  dec c nm = Raise e → decode dec c dc ds nm = Raise e.
Proof. intros Hdec. unfold decode. by rewrite Hdec. Qed.

End Callers.

(** X7.  With the default arguments, or any two negative ones, [decode]
    and [decode_mp3] hand back exactly what the native kernel gave: the
    same samples and rate, or the same error. *)
Theorem decode_unconstrained {contents name : Type}
    (io_audio_decode io_audio_decode_mp3 :
       contents → option name → result (tensor2 * Z))
    (c : contents) (nm : option name) (desired_channels desired_samples : Z) :
  (desired_channels < 0)%Z → (desired_samples < 0)%Z →
  decode io_audio_decode c desired_channels desired_samples nm
  = io_audio_decode c nm
  ∧ decode_mp3 io_audio_decode_mp3 c desired_channels desired_samples nm
    = io_audio_decode_mp3 c nm.
Proof.
  intros Hdc Hds.
  change (decode_mp3 io_audio_decode_mp3) with (decode io_audio_decode_mp3).
  split.
  - destruct (io_audio_decode c nm) as [[samples sr]|e] eqn:Hdec.
    + rewrite (decode_Ok _ _ _ _ _ _ _ Hdec).
      by rewrite fix_shape_unconstrained.
    + by apply decode_Raise.
  - destruct (io_audio_decode_mp3 c nm) as [[samples sr]|e] eqn:Hdec.
    + rewrite (decode_Ok _ _ _ _ _ _ _ Hdec).
      by rewrite fix_shape_unconstrained.
    + by apply decode_Raise.
Qed.

Lemma decode_unconstrained_witness :
  (-1 < 0)%Z ∧ (-1 < 0)%Z
  ∧ decode (fixed_decoder stereo3 44100) () (-1) (-1) None
    = fixed_decoder stereo3 44100 () None
  ∧ decode_mp3 (fixed_decoder mono4 8000) () (-1) (-1) None
    = fixed_decoder mono4 8000 () None.
Proof.
  assert (Hneg : (-1 < 0)%Z) by lia.
  split; [exact Hneg|]. split; [exact Hneg|].
  exact (decode_unconstrained (fixed_decoder stereo3 44100)
           (fixed_decoder mono4 8000) () None (-1) (-1) Hneg Hneg).
Defined.

(** X8.  Why a call fails: with a kernel that returns rank-2 arrays and
    neither argument above the largest int32,
    [decode] and [decode_mp3] raise exactly when the kernel raised, with
    the kernel's error, or when the kernel returned an array that is not
    mono and has fewer channels than [desired_channels >= 0], with the
    broadcast error. *)
Theorem decode_raises_iff {contents name : Type}
    (kernel : contents → option name → result (tensor2 * Z))
    (c : contents) (nm : option name)
    (desired_channels desired_samples : Z) (e : error) :
  (∀ samples sr, kernel c nm = Ok (samples, sr) → rank2 samples) →
  (desired_channels ≤ int32_max)%Z → (desired_samples ≤ int32_max)%Z →
  let failure :=
    kernel c nm = Raise e
    ∨ (e = IncompatibleShapes
       ∧ ∃ samples sr, kernel c nm = Ok (samples, sr)
                       ∧ expansion_refused samples desired_channels) in
  (decode kernel c desired_channels desired_samples nm = Raise e ↔ failure)
  ∧ (decode_mp3 kernel c desired_channels desired_samples nm = Raise e
     ↔ failure).
Proof.
  intros Hrank Hcmax Hsmax failure.
  change (decode_mp3 kernel) with (decode kernel).
  assert (decode kernel c desired_channels desired_samples nm = Raise e
          ↔ failure) as Hiff; [|done].
  unfold failure.
  destruct (kernel c nm) as [[samples sr]|e'] eqn:Hdec.
  - rewrite (decode_Ok _ _ _ _ _ _ _ Hdec).
    specialize (Hrank samples sr eq_refl).
    assert (Decision (expansion_refused samples desired_channels))
      as [Hbad|Hgood] by (unfold expansion_refused; apply _).
    + rewrite fix_shape_refused by done. split.
      * intros [= <-]. right. eauto.
      * by intros [?|[-> _]].
    + destruct (fix_shape_accepted samples _ _ Hrank Hcmax Hsmax Hgood)
        as [out ->].
      split; [done|]. intros [?|(_ & samples' & sr' & [= <- <-] & ?)]; done.
  - rewrite (decode_Raise _ _ _ _ _ _ Hdec). split.
    + intros [= <-]. by left.
    + intros [[= <-]|(_ & samples & sr & ? & _)]; done.
Qed.

Lemma decode_raises_iff_witness :
  let kernel := fixed_decoder stereo3 44100 in
  (∀ samples sr, kernel () None = Ok (samples, sr) → rank2 samples)
  ∧ (5 ≤ int32_max)%Z ∧ (0 ≤ int32_max)%Z
  ∧ (decode kernel () 5 0 None = Raise IncompatibleShapes
     ↔ kernel () None = Raise IncompatibleShapes
       ∨ (IncompatibleShapes = IncompatibleShapes
          ∧ ∃ samples sr, kernel () None = Ok (samples, sr)
                          ∧ expansion_refused samples 5))
  ∧ (decode_mp3 kernel () 5 0 None = Raise IncompatibleShapes
     ↔ kernel () None = Raise IncompatibleShapes
       ∨ (IncompatibleShapes = IncompatibleShapes
          ∧ ∃ samples sr, kernel () None = Ok (samples, sr)
                          ∧ expansion_refused samples 5)).
Proof.
  intros kernel.
  assert (Hrank : ∀ samples sr,
             kernel () None = Ok (samples, sr) → rank2 samples).
  { intros samples sr [= <- _]. rank2_concrete. }
  assert (H5 : (5 ≤ int32_max)%Z) by (vm_compute; discriminate).
  assert (H0 : (0 ≤ int32_max)%Z) by (vm_compute; discriminate).
  split; [exact Hrank|]. split; [exact H5|]. split; [exact H0|].
  exact (decode_raises_iff kernel () None 5 0 IncompatibleShapes
           Hrank H5 H0).
Defined.

(** X9.  What a successful call returns: when neither argument is above
    the largest int32 and the kernel returned a rank-2
    array that the channel request does not refuse, [decode] and
    [decode_mp3] return the kernel's sample rate with a rank-2 array whose
    channel and sample counts are the non-negative requests, the kernel's
    counts elsewhere. *)
Theorem decode_returns_requested_shape {contents name : Type}
    (kernel : contents → option name → result (tensor2 * Z))
    (c : contents) (nm : option name)
    (desired_channels desired_samples : Z) (decoded : tensor2) (sample_rate : Z) :
  kernel c nm = Ok (decoded, sample_rate) →
  rank2 decoded →
  (desired_channels ≤ int32_max)%Z → (desired_samples ≤ int32_max)%Z →
  ¬ expansion_refused decoded desired_channels →
  ∃ out,
    decode kernel c desired_channels desired_samples nm = Ok (out, sample_rate)
    ∧ decode_mp3 kernel c desired_channels desired_samples nm
      = Ok (out, sample_rate)
    ∧ rank2 out
    ∧ channels out
      = (if (desired_channels >=? 0)%Z then desired_channels
         else channels decoded)
    ∧ samples out
      = (if (desired_samples >=? 0)%Z then desired_samples
         else samples decoded).
Proof.
  intros Hdec Hrank Hcmax Hsmax Hgood.
  destruct (fix_shape_accepted decoded _ _ Hrank Hcmax Hsmax Hgood)
    as [out Hout].
  exists out. change (decode_mp3 kernel) with (decode kernel).
  rewrite (decode_Ok _ _ _ _ _ _ _ Hdec), Hout.
  split; [done|]. split; [done|].
  destruct (fix_shape_Ok_shape _ _ _ _ Hrank Hcmax Hsmax Hout)
    as (Hrk & Hch & Hsm).
  split; [done|]. unfold channels, samples. rewrite Hch, Hsm, !Z.geb_leb.
  split.
  - destruct (Z.leb_spec 0 desired_channels); lia.
  - destruct (Z.leb_spec 0 desired_samples); lia.
Qed.

Lemma decode_returns_requested_shape_witness :
  let kernel := fixed_decoder mono4 44100 in
  kernel () None = Ok (mono4, 44100%Z)
  ∧ rank2 mono4
  ∧ (2 ≤ int32_max)%Z ∧ (6 ≤ int32_max)%Z
  ∧ ¬ expansion_refused mono4 2
  ∧ ∃ out,
      decode kernel () 2 6 None = Ok (out, 44100%Z)
      ∧ decode_mp3 kernel () 2 6 None = Ok (out, 44100%Z)
      ∧ rank2 out
      ∧ channels out = (if (2 >=? 0)%Z then 2%Z else channels mono4)
      ∧ samples out = (if (6 >=? 0)%Z then 6%Z else samples mono4).
Proof.
  intros kernel.
  assert (Hdec : kernel () None = Ok (mono4, 44100%Z)) by reflexivity.
  assert (Hrank : rank2 mono4) by rank2_concrete.
  assert (H2 : (2 ≤ int32_max)%Z) by (vm_compute; discriminate).
  assert (H6 : (6 ≤ int32_max)%Z) by (vm_compute; discriminate).
  assert (Hgood : ¬ expansion_refused mono4 2).
  { intros (_ & _ & Hne). by apply Hne. }
  split; [exact Hdec|]. split; [exact Hrank|].
  split; [exact H2|]. split; [exact H6|]. split; [exact Hgood|].
  exact (decode_returns_requested_shape kernel () None 2 6 mono4 44100
           Hdec Hrank H2 H6 Hgood).
Defined.
